(** * Network-Traffic-Anomaly-Detection: the prediction pipeline of the backend

    A shallow embedding of [backend/preprocessing.py], [backend/model_utils.py]
    and of the handlers of [backend/main.py], followed by the properties of the
    pipeline: validation and ordering of a feature dictionary, selection of the
    classifier, batch prediction, loading of the artifacts and the confidence
    bucket of a probability.

    Python values are modelled as follows.
    - A [float] is an IEEE 754 binary64 number, [spec_float] of the Standard
      Library; comparisons and conversions are those of [SpecFloat] at
      precision 53.
    - A [dict] is the list of its items in iteration (insertion) order.
    - A [set] of names is a [gset string]; its iteration order is not modelled.
    - An exception is a value of [exn]; the text of its message is kept as a
      structured [message] holding what the f-string interpolates.
    - The fitted scaler and classifiers (scikit-learn objects) are records of
      functions; every call made on them is logged in a trace of [event]s. *)

From Stdlib Require Import ZArith Floats.SpecFloat.
From stdpp Require Import base decidable option list gmap strings.

Local Open Scope Z_scope.
Local Open Scope string_scope.
Local Open Scope list_scope.

(** ** Floating-point numbers *)

Module Float.

Definition float : Type := spec_float.

Definition prec : Z := 53.
Definition emax : Z := 1024.

(** [float(z)] for a Python int [z], rounded to nearest even; an integer too
    large for a binary64 rounds to an infinity here (Python raises
    [OverflowError] there, see [to_float64] below). *)
Definition of_Z (z : Z) : float := binary_normalize prec emax z 0 false.

(** The float denoted by the decimal literal [n / d], for the literals of the
    source ([0.8] is [decimal 8 10]): the quotient of two exactly
    representable integers, rounded once to nearest even. *)
Definition decimal (n d : Z) : float := SFdiv prec emax (of_Z n) (of_Z d).

Definition zero : float := S754_zero false.

Definition ltb (x y : float) : bool := SFltb x y.
(** Python's [x > y]. *)
Definition gtb (x y : float) : bool := SFltb y x.

Definition is_nan (x : float) : bool :=
  match x with S754_nan => true | _ => false end.
Definition is_inf (x : float) : bool :=
  match x with S754_infinity _ => true | _ => false end.
Definition is_finite (x : float) : bool := negb (is_nan x || is_inf x).

End Float.
Import Float.

(** ** Python values, exceptions and dictionaries *)

(** The values a feature dictionary can hold, as far as
    [validate_features] tells them apart: a [float], an [int] (which also
    stands for a [bool]), or any other object, seen through its type name and
    through what [float(value)] makes of it ([None] when [float] raises
    [ValueError] or [TypeError]). An object on which [float] raises another
    exception (the [OverflowError] of a [Fraction] too large for a float) is
    not a value of this type: that exception is not caught by the [except]
    clause and leaves [validate_features] as it is. *)
Inductive pyval :=
| PyFloat (f : float)
| PyInt (z : Z)
| PyOther (ty : string) (as_float : option float).

Inductive artifact := scaler_pkl | logistic_regression_pkl | knn_pkl | model_metadata_json.

Inductive message :=
| MissingRequiredFeatures (missing_features : gset string)
    (* f"Missing required features: {list(missing_features)}" *)
| MustBeNumeric (name ty : string)
    (* f"Feature '{name}' must be numeric, got {type(value)}" *)
| HasInvalidValue (name : string) (value : pyval)
    (* f"Feature '{name}' has invalid value: {value}" *)
| ModelsNotLoaded
    (* "Models not loaded" *)
| UnknownModelType (model_type : string)
    (* f"Unknown model type: {model_type}" *)
| ModelTypeMustBe
    (* "model_type must be 'knn' or 'logistic_regression'" *)
| NotFoundAt (which : artifact)
    (* f"Scaler not found at {scaler_path}" and its three siblings *)
| UfuncNotSupported
    (* numpy: "ufunc 'isnan' not supported for the input types, ..." *)
| IntTooLarge
    (* "int too large to convert to float" *)
| External (text : string).
    (* whatever a scikit-learn call raises *)

Inductive exn :=
| ValueError (m : message)
| TypeError (m : message)
| KeyError (key : string)
| OverflowError (m : message)
| FileNotFoundError (m : message)
| OtherException (m : message).

Inductive result (A : Type) :=
| Ok (a : A)
| Raise (e : exn).
Arguments Ok {A} a.
Arguments Raise {A} e.

#[export] Instance result_ret : MRet result := @Ok.
#[export] Instance result_bind : MBind result := λ A B f m,
  match m with Ok a => f a | Raise e => Raise e end.

Definition is_Ok {A} (r : result A) : bool :=
  match r with Ok _ => true | Raise _ => false end.

(** [Dict[str, float]] by annotation; the items in iteration order. *)
Abbreviation dict := (list (string * pyval)) (only parsing).

Definition keys (d : dict) : list string := d.*1.

(** [d[k]]: the value of the first item with key [k] (the keys of a Python
    dictionary are distinct), [KeyError] when there is none. *)
Fixpoint getitem (d : dict) (k : string) : result pyval :=
  match d with
  | [] => Raise (KeyError k)
  | (k', v) :: d' => if decide (k' = k) then Ok v else getitem d' k
  end.

(** ** numpy *)

Module np.

Abbreviation ndarray := (list float) (only parsing).

(** numpy holds a Python int as [int64] or [uint64]; an int outside both
    becomes an [object] array, on which the ufuncs raise [TypeError]. *)
Definition fits_integer (z : Z) : bool := (- 2 ^ 63 <=? z)%Z && (z <? 2 ^ 64)%Z.

Definition ufunc_on (test : float → bool) (value : pyval) : result bool :=
  match value with
  | PyFloat f => Ok (test f)
  | PyInt z => if fits_integer z then Ok false else Raise (TypeError UfuncNotSupported)
  | PyOther _ _ => Raise (TypeError UfuncNotSupported)
  end.

Definition isnan : pyval → result bool := ufunc_on is_nan.
Definition isinf : pyval → result bool := ufunc_on is_inf.

(** One element of [np.array([...], dtype=np.float64)]. The conversion is
    exact for a [float] and for an [int]. For another object it is the one
    numpy applies to a scalar such as a [str], [float(value)]; numpy takes a
    [bytearray], a [memoryview] or an array as a sequence instead, which this
    clause does not describe, so the properties of the array that do not hold
    for every such object are stated for values that are floats or ints. *)
Definition to_float64 (value : pyval) : result float :=
  match value with
  | PyFloat f => Ok f
  | PyInt z =>
      if is_inf (of_Z z) then Raise (OverflowError IntTooLarge) else Ok (of_Z z)
  | PyOther ty (Some f) => Ok f
  | PyOther ty None => Raise (ValueError (External "could not convert to float"))
  end.

Fixpoint array (values : list pyval) : result ndarray :=
  match values with
  | [] => Ok []
  | v :: values' =>
      x ← to_float64 v;
      xs ← array values';
      Ok (x :: xs)
  end.

(** [np.nan_to_num(a, nan=0.0, posinf=0.0, neginf=0.0)]. *)
Definition nan_to_num (a : ndarray) : ndarray :=
  (λ x, if is_nan x || is_inf x then zero else x) <$> a.

End np.

(** ** preprocessing.py *)

Definition isinstance_int_float (value : pyval) : bool :=
  match value with
  | PyFloat _ | PyInt _ => true
  | PyOther _ _ => false
  end.

Definition type_of (value : pyval) : string :=
  match value with
  | PyFloat _ => "float"
  | PyInt _ => "int"
  | PyOther ty _ => ty
  end.

(** [float(value)] inside the [try] of [validate_features]; [None] stands for
    the [ValueError] or [TypeError] that the [except] clause catches. *)
Definition py_float (value : pyval) : option pyval :=
  match value with
  | PyFloat f => Some (PyFloat f)
  | PyInt z => Some (PyFloat (of_Z z))
  | PyOther _ as_float => PyFloat <$> as_float
  end.

(** The body of the loop [for name, value in features.items()]. *)
Definition check_item (name : string) (value : pyval) : result unit :=
  value ← (if negb (isinstance_int_float value) then
             match py_float value with
             | Some value' => Ok value'
             | None => Raise (ValueError (MustBeNumeric name (type_of value)))
             end
           else Ok value);
  nan ← np.isnan value;
  invalid ← (if (nan : bool) then Ok true else np.isinf value);
  if (invalid : bool) then Raise (ValueError (HasInvalidValue name value)) else Ok ().

Fixpoint check_items (items : dict) : result unit :=
  match items with
  | [] => Ok ()
  | (name, value) :: items' => _ ← check_item name value; check_items items'
  end.

Definition validate_features (features : dict) (required_features : list string)
  : result unit :=
  let missing_features : gset string :=
    list_to_set required_features ∖ list_to_set (keys features) in
  if decide (missing_features ≠ ∅) then
    Raise (ValueError (MissingRequiredFeatures missing_features))
  else
    check_items features.

(** [[features[name] for name in required_features]] *)
Fixpoint select (features : dict) (required_features : list string)
  : result (list pyval) :=
  match required_features with
  | [] => Ok []
  | name :: names =>
      v ← getitem features name;
      vs ← select features names;
      Ok (v :: vs)
  end.

Definition preprocess_input (features : dict) (required_features : list string)
  : result np.ndarray :=
  _ ← validate_features features required_features;
  values ← select features required_features;
  feature_array ← np.array values;
  Ok (np.nan_to_num feature_array).

(** ** scikit-learn objects and the trace of the calls made on them *)

Module sklearn.

(** A fitted [StandardScaler], as unpickled from [scaler.pkl]:
    [transform] on one row, which may raise. *)
Record Scaler := { transform : np.ndarray → result np.ndarray }.

(** A fitted classifier: [predict(X)[0]], and [predict_proba(X)[0][1]] when
    the object has the attribute ([hasattr(model, "predict_proba")]). *)
Record Estimator := {
  predict : np.ndarray → result Z;
  predict_proba : option (np.ndarray → result float)
}.

End sklearn.

Inductive estimator := the_knn | the_logistic_regression.

Inductive event :=
| Transform (X : np.ndarray)
| Predict (model : estimator) (X : np.ndarray)
| PredictProba (model : estimator) (X : np.ndarray).

(** A computation that may raise and that logs its calls on the scaler and on
    the classifiers; what was called before an exception stays in the log. *)
Definition traced (A : Type) : Type := list event * result A.

#[export] Instance traced_ret : MRet traced := λ A a, ([], Ok a).
#[export] Instance traced_bind : MBind traced := λ A B f m,
  match m.2 with
  | Ok a => (m.1 ++ (f a).1, (f a).2)
  | Raise e => (m.1, Raise e)
  end.

Definition lift {A} (r : result A) : traced A := ([], r).
Definition call {A} (ev : event) (r : result A) : traced A := ([ev], r).
Definition raise {A} (e : exn) : traced A := ([], Raise e).

(** ** model_utils.py *)

(** The content of [model_metadata.json], of which the loader reads the key
    ["feature_names"] ([None] when the key is absent). *)
Record Metadata := { md_feature_names : option (list string) }.

(** The model directory on disk: for each of the four files, [None] when
    [path.exists()] is false, else the object that [joblib.load] or
    [json.load] returns for it. *)
Record Directory := {
  scaler_file : option sklearn.Scaler;
  logistic_regression_file : option sklearn.Estimator;
  knn_file : option sklearn.Estimator;
  model_metadata_file : option Metadata
}.

Module ModelPredictor.

(** The attributes of the object. *)
Record t := {
  model_dir : Directory;
  logistic_regression : option sklearn.Estimator;
  knn : option sklearn.Estimator;
  scaler : option sklearn.Scaler;
  feature_names : list string;
  metadata : option Metadata   (* [None] is the initial [{}] *)
}.

Definition __init__ (model_dir : Directory) : t :=
  {| model_dir := model_dir; logistic_regression := None; knn := None;
     scaler := None; feature_names := []; metadata := None |}.

Definition set_scaler (self : t) (s : sklearn.Scaler) : t :=
  {| model_dir := model_dir self; logistic_regression := logistic_regression self;
     knn := knn self; scaler := Some s; feature_names := feature_names self;
     metadata := metadata self |}.

Definition set_models (self : t) (lr k : sklearn.Estimator) : t :=
  {| model_dir := model_dir self; logistic_regression := Some lr;
     knn := Some k; scaler := scaler self; feature_names := feature_names self;
     metadata := metadata self |}.

Definition set_metadata (self : t) (md : Metadata) : t :=
  {| model_dir := model_dir self; logistic_regression := logistic_regression self;
     knn := knn self; scaler := scaler self;
     feature_names := default [] (md_feature_names md);
     metadata := Some md |}.

(** [self.load()]: the object after the call, and [Ok ()] or the exception
    raised. The attributes assigned before a [raise] stay assigned. *)
Definition load (self : t) : t * result unit :=
  match scaler_file (model_dir self) with
  | None => (self, Raise (FileNotFoundError (NotFoundAt scaler_pkl)))
  | Some s =>
      let self := set_scaler self s in
      match logistic_regression_file (model_dir self) with
      | None => (self, Raise (FileNotFoundError (NotFoundAt logistic_regression_pkl)))
      | Some lr =>
          match knn_file (model_dir self) with
          | None => (self, Raise (FileNotFoundError (NotFoundAt knn_pkl)))
          | Some k =>
              let self := set_models self lr k in
              match model_metadata_file (model_dir self) with
              | Some md => (set_metadata self md, Ok ())
              | None => (self, Raise (FileNotFoundError (NotFoundAt model_metadata_json)))
              end
          end
      end
  end.

Definition half : float := decimal 5 10.

Definition predict (self : t) (features : np.ndarray) (model_type : string)
  : traced (Z * float) :=
  match scaler self, logistic_regression self, knn self with
  | Some the_scaler, Some lr, Some k =>
      (* Scale features *)
      features_scaled ← call (Transform features) (sklearn.transform the_scaler features);
      (* Select model *)
      model ← (if decide (model_type = "knn") then mret (the_knn, k)
               else if decide (model_type = "logistic_regression")
                    then mret (the_logistic_regression, lr)
               else raise (ValueError (UnknownModelType model_type)));
      (* Predict *)
      prediction ← call (Predict model.1 features_scaled)
                        (sklearn.predict model.2 features_scaled);
      (* Get probability *)
      probability ← match sklearn.predict_proba model.2 with
                     | Some proba =>
                         call (PredictProba model.1 features_scaled) (proba features_scaled)
                     | None => mret (if (prediction =? 1)%Z then half else half)
                     end;
      mret (prediction, probability)
  | _, _, _ => raise (ValueError ModelsNotLoaded)
  end.

End ModelPredictor.

Definition load_models (model_dir : Directory) : result ModelPredictor.t :=
  let predictor := ModelPredictor.__init__ model_dir in
  let '(predictor, r) := ModelPredictor.load predictor in
  _ ← r;
  Ok predictor.

(** ** main.py *)

(** The module-level variable [predictor], [None] until [startup_event]
    assigns it. [startup_event] returns the new value of the variable and the
    exception it re-raises, if any. *)
Definition startup_event (predictor : option ModelPredictor.t) (model_dir : Directory)
  : option ModelPredictor.t * result unit :=
  match load_models model_dir with
  | Ok p => (Some p, Ok ())
  | Raise e => (predictor, Raise e)
  end.

Record PredictionRequest := {
  features : dict;
  model_type : string
}.

(** The [@validator("model_type")] of [PredictionRequest]. *)
Definition validate_model_type (v : string) : result string :=
  if decide (v ∉ ["knn"; "logistic_regression"]) then
    Raise (ValueError ModelTypeMustBe)
  else Ok v.

(** Construction of a [PredictionRequest]: the validator runs on the field,
    and no request exists when it raises. The conversion that pydantic
    applies to the values of [features] ([Dict[str, float]]) is not part of
    this definition: the dictionary is kept as given, and the handlers below
    are defined on any dictionary. *)
Definition new_PredictionRequest (features : dict) (model_type : string)
  : result PredictionRequest :=
  v ← validate_model_type model_type;
  Ok {| features := features; model_type := v |}.

Record PredictionResponse := {
  prediction : Z;
  probability : float;
  model_used : string;
  confidence : string;
  timestamp : string
}.

Record BatchPredictionRequest := {
  data : list dict;
  batch_model_type : string
}.

Record BatchPredictionResponse := {
  predictions : list Z;
  probabilities : list float;
  batch_model_used : string;
  total_count : Z;
  attack_count : Z;
  normal_count : Z
}.

Inductive detail :=
| DetailModelsNotLoaded          (* "Models not loaded" *)
| DetailStr (e : exn)            (* str(e) *)
| DetailPredictionError (e : exn)        (* f"Prediction error: {str(e)}" *)
| DetailBatchPredictionError (e : exn).  (* f"Batch prediction error: {str(e)}" *)

Inductive http (A : Type) :=
| Respond (a : A)
| HTTPException (status_code : Z) (d : detail).
Arguments Respond {A} a.
Arguments HTTPException {A} status_code d.

(** The two statements that both handlers run on one feature dictionary:
    [preprocess_input(features, predictor.feature_names)] and then
    [predictor.predict(features_array, model_type=...)]. *)
Definition predict_one (predictor : ModelPredictor.t) (features : dict)
    (model_type : string) : traced (Z * float) :=
  features_array ← lift (preprocess_input features (ModelPredictor.feature_names predictor));
  ModelPredictor.predict predictor features_array model_type.

(** "Determine confidence" in the handler [predict]. *)
Definition determine_confidence (probability : float) : string :=
  if gtb probability (decimal 8 10) || ltb probability (decimal 2 10) then "High"
  else if gtb probability (decimal 6 10) || ltb probability (decimal 4 10) then "Medium"
  else "Low".

(** [POST /api/predict]; [now] is [datetime.now().isoformat()]. *)
Definition predict (predictor : option ModelPredictor.t) (now : string)
    (request : PredictionRequest) : list event * http PredictionResponse :=
  match predictor with
  | None => ([], HTTPException 503 DetailModelsNotLoaded)
  | Some predictor =>
      let body : traced PredictionResponse :=
        r ← predict_one predictor (features request) (model_type request);
        mret {| prediction := r.1;
                probability := r.2;
                model_used := model_type request;
                confidence := determine_confidence r.2;
                timestamp := now |} in
      match body.2 with
      | Ok response => (body.1, Respond response)
      | Raise (ValueError m) => (body.1, HTTPException 400 (DetailStr (ValueError m)))
      | Raise e => (body.1, HTTPException 500 (DetailPredictionError e))
      end
  end.

(** The loop [for features_dict in request.data] with its two accumulators. *)
Fixpoint batch_loop (predictor : ModelPredictor.t) (model_type : string)
    (data : list dict) (predictions : list Z) (probabilities : list float)
  : traced (list Z * list float) :=
  match data with
  | [] => mret (predictions, probabilities)
  | features_dict :: data' =>
      r ← predict_one predictor features_dict model_type;
      batch_loop predictor model_type data'
                 (predictions ++ [r.1]) (probabilities ++ [r.2])
  end.

Definition sum (l : list Z) : Z := foldr Z.add 0%Z l.
Definition len {A} (l : list A) : Z := Z.of_nat (length l).

(** [POST /api/predict/batch] *)
Definition predict_batch (predictor : option ModelPredictor.t)
    (request : BatchPredictionRequest) : list event * http BatchPredictionResponse :=
  match predictor with
  | None => ([], HTTPException 503 DetailModelsNotLoaded)
  | Some predictor =>
      let body : traced BatchPredictionResponse :=
        r ← batch_loop predictor (batch_model_type request) (data request) [] [];
        let predictions := r.1 in
        let probabilities := r.2 in
        let attack_count := sum predictions in
        let normal_count := (len predictions - attack_count)%Z in
        mret {| predictions := predictions;
                probabilities := probabilities;
                batch_model_used := batch_model_type request;
                total_count := len predictions;
                attack_count := attack_count;
                normal_count := normal_count |} in
      match body.2 with
      | Ok response => (body.1, Respond response)
      | Raise (ValueError m) => (body.1, HTTPException 400 (DetailStr (ValueError m)))
      | Raise e => (body.1, HTTPException 500 (DetailBatchPredictionError e))
      end
  end.


(** * Vocabulary of the properties *)

(** Python's [x < y] and [x > y] on floats, as propositions. *)
Definition lt (x y : float) : Prop := ltb x y = true.
Definition gt (x y : float) : Prop := gtb x y = true.

#[export] Instance lt_dec x y : Decision (lt x y) := bool_eq_dec _ _.
#[export] Instance gt_dec x y : Decision (gt x y) := bool_eq_dec _ _.


(** A finite numeric value: a float that is neither NaN nor infinite, or an
    int that numpy holds as an integer. *)
Definition finite_numeric (value : pyval) : bool :=
  match value with
  | PyFloat f => is_finite f
  | PyInt z => np.fits_integer z
  | PyOther _ _ => false
  end.

(** A value on which the loop of [validate_features] raises [ValueError]: one
    that is NaN or infinite, as given or once converted by [float()], or one
    that [float()] does not convert. *)
Definition offending (value : pyval) : bool :=
  match value with
  | PyFloat f => is_nan f || is_inf f
  | PyInt _ => false
  | PyOther _ (Some f) => is_nan f || is_inf f
  | PyOther _ None => true
  end.

(** The message raised for an offending value: the type of a value that
    [float()] does not convert, the (converted) value otherwise. *)
Definition value_error (name : string) (value : pyval) : message :=
  match value with
  | PyOther ty None => MustBeNumeric name ty
  | PyOther _ (Some f) => HasInvalidValue name (PyFloat f)
  | _ => HasInvalidValue name value
  end.

(** The item goes through the body of the loop without an exception. *)
Definition passes (item : string * pyval) : Prop := check_item item.1 item.2 = Ok ().

(** [features] holds every name of the contract. *)
Definition complete (features : dict) (required_features : list string) : Prop :=
  Forall (λ name, name ∈ keys features) required_features.

(** The names of the contract that [features] lacks. *)
Definition missing (features : dict) (required_features : list string) : gset string :=
  list_to_set required_features ∖ list_to_set (keys features).

(** [extended] is the dictionary [features] with additional items, none of
    them under a name of the contract. *)
Definition extends (extended features : dict) (required_features : list string) : Prop :=
  NoDup (keys extended) ∧
  features ⊆ extended ∧
  Forall (λ item, item ∉ features → item.1 ∉ required_features) extended.

#[export] Instance spec_float_eq_dec : EqDecision spec_float.
Proof. solve_decision. Defined.
#[export] Instance pyval_eq_dec : EqDecision pyval.
Proof. solve_decision. Defined.

#[export] Instance complete_dec features required : Decision (complete features required).
Proof. unfold complete. apply _. Defined.
#[export] Instance extends_dec extended features required :
  Decision (extends extended features required).
Proof. unfold extends. apply _. Defined.

(** The input of the example scenario: the contract
    [["duration", "fwd_packets"]] and the features
    [{"duration": 100.0, "fwd_packets": 3.0}]. *)
Definition example_contract : list string := ["duration"; "fwd_packets"].
Definition example_features : dict :=
  [("duration", PyFloat (decimal 100 1)); ("fwd_packets", PyFloat (decimal 3 1))].

(** The three attributes that [ModelPredictor.predict] requires are set. *)
Definition loaded (self : ModelPredictor.t) : Prop :=
  is_Some (ModelPredictor.scaler self) ∧
  is_Some (ModelPredictor.logistic_regression self) ∧
  is_Some (ModelPredictor.knn self).

(** The classifier that [model_type] selects, if any. *)
Definition selected (self : ModelPredictor.t) (model_type : string)
  : option sklearn.Estimator :=
  if decide (model_type = "knn") then ModelPredictor.knn self
  else if decide (model_type = "logistic_regression")
       then ModelPredictor.logistic_regression self
  else None.

(** The file of the artifact is absent from the directory. *)
Definition absent (model_dir : Directory) (which : artifact) : Prop :=
  match which with
  | scaler_pkl => scaler_file model_dir = None
  | logistic_regression_pkl => logistic_regression_file model_dir = None
  | knn_pkl => knn_file model_dir = None
  | model_metadata_json => model_metadata_file model_dir = None
  end.

(** The reference for the loop of the batch handler: [predict_one] on each
    element in turn, the results collected in input order. *)
Fixpoint predict_each (predictor : ModelPredictor.t) (model_type : string)
    (data : list dict) : traced (list (Z * float)) :=
  match data with
  | [] => mret []
  | features :: data' =>
      r ← predict_one predictor features model_type;
      rs ← predict_each predictor model_type data';
      mret (r :: rs)
  end.

(** The number of records labelled 1. *)
Definition count_attacks (predictions : list Z) : Z :=
  len (filter (λ label, label = 1%Z) predictions).

(** Example artifacts: a scaler that leaves the row as it is, a classifier
    that answers label 1 with probability 0.95, and one that answers label 0
    and has no [predict_proba]. *)
Definition example_scaler : sklearn.Scaler :=
  {| sklearn.transform := λ X, Ok X |}.
Definition example_knn : sklearn.Estimator :=
  {| sklearn.predict := λ _, Ok 1%Z;
     sklearn.predict_proba := Some (λ _, Ok (decimal 95 100)) |}.
Definition example_without_proba : sklearn.Estimator :=
  {| sklearn.predict := λ _, Ok 0%Z;
     sklearn.predict_proba := None |}.
Definition example_directory : Directory :=
  {| scaler_file := Some example_scaler;
     logistic_regression_file := Some example_without_proba;
     knn_file := Some example_knn;
     model_metadata_file := Some {| md_feature_names := Some example_contract |} |}.
Definition example_predictor : ModelPredictor.t :=
  (ModelPredictor.load (ModelPredictor.__init__ example_directory)).1.


(** * The rest of the backend *)

(** ** Python built-ins and numpy, continued *)

(** The assignment [d[k] = v]: a key of the dictionary keeps its place, a new
    key comes last. *)
Fixpoint setitem (d : dict) (k : string) (v : pyval) : dict :=
  match d with
  | [] => [(k, v)]
  | (k', v') :: d' =>
      if decide (k' = k) then (k, v) :: d' else (k', v') :: setitem d' k v
  end.

(** The built-in [float(value)]. *)
Definition builtin_float (value : pyval) : result float :=
  match value with
  | PyFloat f => Ok f
  | PyInt z =>
      if is_inf (of_Z z) then Raise (OverflowError IntTooLarge) else Ok (of_Z z)
  | PyOther _ (Some f) => Ok f
  | PyOther _ None => Raise (ValueError (External "could not convert to float"))
  end.

(** [np.isfinite(value)]: exact on a [float] and on an [int] (true on an int
    that numpy holds, [TypeError] on one that it does not hold). On another
    object the answer of numpy depends on the object: the [TypeError] here is
    that of an object without a numpy loop, such as a [str]; a numpy scalar is
    answered and a list gives an array, which this clause does not describe.
    The properties of [normalize_features] are therefore stated for
    dictionaries of floats and ints, or for the dictionaries it returns. *)
Definition np_isfinite (value : pyval) : result bool :=
  match value with
  | PyFloat f => Ok (is_finite f)
  | PyInt z => if np.fits_integer z then Ok true else Raise (TypeError UfuncNotSupported)
  | PyOther _ _ => Raise (TypeError UfuncNotSupported)
  end.

(** ** preprocessing.py: normalize_features *)

(** The loop [for name, value in features.items()] of [normalize_features],
    with the dictionary [normalized] built so far. *)
Fixpoint normalize_items (items : dict) (normalized : dict) : result dict :=
  match items with
  | [] => Ok normalized
  | (name, value) :: items' =>
      finite ← np_isfinite value;
      if (finite : bool) then
        x ← builtin_float value;
        normalize_items items' (setitem normalized name (PyFloat x))
      else
        normalize_items items' (setitem normalized name (PyFloat zero))
  end.

Definition normalize_features (features : dict) : result dict :=
  normalize_items features [].

(** ** model_utils.py: get_stats *)

Record ModelsLoaded := {
  loaded_logistic_regression : bool;
  loaded_knn : bool;
  loaded_scaler : bool
}.

Record Stats := {
  stats_metadata : option Metadata;
  stats_num_features : Z;
  stats_models_loaded : ModelsLoaded
}.

(** [ModelPredictor.get_stats(self)] *)
Definition ModelPredictor_get_stats (self : ModelPredictor.t) : Stats :=
  {| stats_metadata := ModelPredictor.metadata self;
     stats_num_features := len (ModelPredictor.feature_names self);
     stats_models_loaded :=
       {| loaded_logistic_regression :=
            bool_decide (is_Some (ModelPredictor.logistic_regression self));
          loaded_knn := bool_decide (is_Some (ModelPredictor.knn self));
          loaded_scaler := bool_decide (is_Some (ModelPredictor.scaler self)) |} |}.

(** ** main.py: the other handlers *)

Record HealthResponse := {
  status : string;
  health_models_loaded : bool;
  health_timestamp : string
}.

(** [GET /health] *)
Definition health_check (predictor : option ModelPredictor.t) (now : string)
  : HealthResponse :=
  {| status := if bool_decide (is_Some predictor) then "healthy" else "unhealthy";
     health_models_loaded := bool_decide (is_Some predictor);
     health_timestamp := now |}.

Record FeatureNamesResponse := {
  response_feature_names : list string;
  response_num_features : Z;
  example : dict
}.

(** The comprehension [{name: 0.0 for name in names}]. *)
Definition zeros_dict (names : list string) : dict :=
  foldl (λ d name, setitem d name (PyFloat zero)) [] names.

(** [GET /api/models/features] *)
Definition get_feature_names (predictor : option ModelPredictor.t)
  : http FeatureNamesResponse :=
  match predictor with
  | None => HTTPException 503 DetailModelsNotLoaded
  | Some predictor =>
      Respond {| response_feature_names := ModelPredictor.feature_names predictor;
                 response_num_features := len (ModelPredictor.feature_names predictor);
                 example := zeros_dict (take 10 (ModelPredictor.feature_names predictor)) |}
  end.

(** [GET /api/stats] *)
Definition get_stats (predictor : option ModelPredictor.t) : http Stats :=
  match predictor with
  | None => HTTPException 503 DetailModelsNotLoaded
  | Some predictor => Respond (ModelPredictor_get_stats predictor)
  end.

(** ** cyberai/train_model.py and train_model_fast.py: the choice of k *)

(** What one turn of the loop [for k in [3, 5, 7]] computes before the test:
    the classifier fitted with [n_neighbors=k] and its four scores on the test
    set. Fitting and scoring are scikit-learn's. *)
Record KnnEvaluation := {
  fitted : sklearn.Estimator;
  knn_f1 : float;     (* f1 *)
  knn_acc : float;    (* acc *)
  knn_prec : float;   (* prec *)
  knn_rec : float     (* rec *)
}.

(** The six variables that the loop updates. *)
Record KnnBest := {
  best_knn : option float;
  best_knn_model : option sklearn.Estimator;
  best_k : option Z;
  best_knn_acc : option float;
  best_knn_prec : option float;
  best_knn_rec : option float
}.

Definition no_best : KnnBest :=
  {| best_knn := None; best_knn_model := None; best_k := None;
     best_knn_acc := None; best_knn_prec := None; best_knn_rec := None |}.

(** One turn of the loop: [if best_knn is None or f1 > best_knn]. *)
Definition knn_turn (evaluate : Z → KnnEvaluation) (best : KnnBest) (k : Z) : KnnBest :=
  let knn := evaluate k in
  if match best_knn best with
     | None => true
     | Some best_f1 => gtb (knn_f1 knn) best_f1
     end
  then {| best_knn := Some (knn_f1 knn);
          best_knn_model := Some (fitted knn);
          best_k := Some k;
          best_knn_acc := Some (knn_acc knn);
          best_knn_prec := Some (knn_prec knn);
          best_knn_rec := Some (knn_rec knn) |}
  else best.

Definition knn_loop (evaluate : Z → KnnEvaluation) (ks : list Z) (best : KnnBest)
  : KnnBest :=
  foldl (knn_turn evaluate) best ks.

Definition choose_knn (evaluate : Z → KnnEvaluation) : KnnBest :=
  knn_loop evaluate [3; 5; 7]%Z no_best.

(** The block ["knn"] of the metadata written after the loop; [float(None)]
    raises [TypeError]. *)
Record KnnBlock := {
  block_k : option Z;
  block_accuracy : float;
  block_precision : float;
  block_recall : float;
  block_f1_score : float
}.

Definition float_of_optional (x : option float) : result float :=
  match x with
  | Some x => Ok x
  | None => Raise (TypeError (External "float() argument must be a string or a real number"))
  end.

Definition knn_block (best : KnnBest) : result KnnBlock :=
  accuracy ← float_of_optional (best_knn_acc best);
  precision ← float_of_optional (best_knn_prec best);
  recall ← float_of_optional (best_knn_rec best);
  f1_score ← float_of_optional (best_knn best);
  Ok {| block_k := best_k best;
        block_accuracy := accuracy;
        block_precision := precision;
        block_recall := recall;
        block_f1_score := f1_score |}.

(** * Vocabulary of the further properties *)

(** A value that the loop of [validate_features] lets through: a finite
    float, an int that numpy holds, or another object that [float()] converts
    to a finite float. *)
Definition accepted (value : pyval) : bool :=
  match value with
  | PyFloat f => is_finite f
  | PyInt z => np.fits_integer z
  | PyOther _ (Some f) => is_finite f
  | PyOther _ None => false
  end.

(** What [normalize_features] stores for a value on which [np.isfinite]
    answers. *)
Definition normalized_value (value : pyval) : pyval :=
  match value with
  | PyFloat f => PyFloat (if is_finite f then f else zero)
  | PyInt z => PyFloat (of_Z z)
  | PyOther _ _ => value
  end.

(** A float, or an int that numpy holds. *)
Definition is_number (value : pyval) : bool :=
  match value with
  | PyFloat _ => true
  | PyInt z => np.fits_integer z
  | PyOther _ _ => false
  end.

(** The status of the exception that the two prediction handlers raise for an
    exception of their [try] block. *)
Definition status_of (e : exn) : Z :=
  match e with ValueError _ => 400 | _ => 500 end%Z.

#[export] Instance estimator_eq_dec : EqDecision estimator.
Proof. solve_decision. Defined.

(** The events of a call on a classifier other than [model]. *)
Definition calls_other (model : estimator) (ev : event) : bool :=
  match ev with
  | Transform _ => false
  | Predict m _ | PredictProba m _ => bool_decide (m ≠ model)
  end.

(** The tag of the classifier that a valid model type selects. *)
Definition estimator_of (model_type : string) : estimator :=
  if decide (model_type = "knn") then the_knn else the_logistic_regression.

(** An example evaluation for the choice of k: F1 0.9 with k = 3, 0.95 with
    k = 5 and with k = 7. *)
Definition example_evaluate (k : Z) : KnnEvaluation :=
  {| fitted := example_knn;
     knn_f1 := if (k =? 3)%Z then decimal 9 10 else decimal 95 100;
     knn_acc := decimal 9 10; knn_prec := decimal 9 10; knn_rec := decimal 9 10 |}.

(** The detail of the exception that the handler [predict], and the handler
    [predict_batch], raise for an exception of their [try] block. *)
Definition predict_detail (e : exn) : detail :=
  match e with ValueError _ => DetailStr e | _ => DetailPredictionError e end.
Definition batch_detail (e : exn) : detail :=
  match e with ValueError _ => DetailStr e | _ => DetailBatchPredictionError e end.

(** The six variables once the candidate [k] has been taken as the best. *)
Definition best_of (evaluate : Z → KnnEvaluation) (k : Z) : KnnBest :=
  {| best_knn := Some (knn_f1 (evaluate k));
     best_knn_model := Some (fitted (evaluate k));
     best_k := Some k;
     best_knn_acc := Some (knn_acc (evaluate k));
     best_knn_prec := Some (knn_prec (evaluate k));
     best_knn_rec := Some (knn_rec (evaluate k)) |}.

(** The values that [features] holds under the names of the contract are
    instances of [int] or [float]. *)
Definition numbers_at (features : dict) (required_features : list string) : Prop :=
  Forall (λ name, match getitem features name with
                  | Ok value => isinstance_int_float value = true
                  | Raise _ => True
                  end) required_features.

#[export] Instance numbers_at_dec features required :
  Decision (numbers_at features required).
Proof.
  unfold numbers_at. apply Forall_dec. intros name.
  destruct (getitem features name); apply _.
Defined.

(** * Properties *)

(** ** The confidence bucket *)

Lemma or_true_iff_lt_gt p a b : gtb p a || ltb p b = true ↔ gt p a ∨ lt p b.
Proof. unfold gt, lt. rewrite orb_true_iff. reflexivity. Qed.

Lemma determine_confidence_High p :
  gt p (decimal 8 10) ∨ lt p (decimal 2 10) → determine_confidence p = "High".
Proof.
  intros H%or_true_iff_lt_gt. unfold determine_confidence. by rewrite H.
Qed.

Lemma determine_confidence_Medium p :
  ¬ (gt p (decimal 8 10) ∨ lt p (decimal 2 10)) →
  gt p (decimal 6 10) ∨ lt p (decimal 4 10) →
  determine_confidence p = "Medium".
Proof.
  rewrite <- !or_true_iff_lt_gt. intros H1%not_true_is_false H2.
  unfold determine_confidence. by rewrite H1, H2.
Qed.

Lemma determine_confidence_Low p :
  ¬ (gt p (decimal 8 10) ∨ lt p (decimal 2 10)) →
  ¬ (gt p (decimal 6 10) ∨ lt p (decimal 4 10)) →
  determine_confidence p = "Low".
Proof.
  rewrite <- !or_true_iff_lt_gt. intros H1%not_true_is_false H2%not_true_is_false.
  unfold determine_confidence. by rewrite H1, H2.
Qed.

(** What the handler [predict] answers when the pipeline returns
    [(label, p)]: the bucket is computed from [p] alone, by the caller of
    [ModelPredictor.predict]. *)
Lemma predict_responds predictor now request trace label p :
  predict_one predictor (features request) (model_type request) = (trace, Ok (label, p)) →
  predict (Some predictor) now request =
    (trace, Respond {| prediction := label; probability := p;
                       model_used := model_type request;
                       confidence := determine_confidence p;
                       timestamp := now |}).
Proof.
  intros H. unfold predict. cbn [mbind traced_bind mret traced_ret].
  rewrite H. cbn. by rewrite app_nil_r.
Qed.

(** C1. The bucket that the handler of a single prediction assigns to the
    probability [p] it received is "High" if [p > 0.8 or p < 0.2], otherwise
    "Medium" if [p > 0.6 or p < 0.4], otherwise "Low"; 0.9 and 0.1 are "High",
    0.65 and 0.35 are "Medium", 0.5 is "Low". *)
Theorem confidence_bucketing :
  (∀ predictor now request trace label p,
     predict_one predictor (features request) (model_type request) = (trace, Ok (label, p)) →
     ∃ response,
       predict (Some predictor) now request = (trace, Respond response) ∧
       probability response = p ∧
       confidence response = determine_confidence p) ∧
  (∀ p, determine_confidence p =
        if bool_decide (gt p (decimal 8 10) ∨ lt p (decimal 2 10)) then "High"
        else if bool_decide (gt p (decimal 6 10) ∨ lt p (decimal 4 10)) then "Medium"
        else "Low") ∧
  determine_confidence (decimal 9 10) = "High" ∧
  determine_confidence (decimal 5 10) = "Low" ∧
  determine_confidence (decimal 65 100) = "Medium" ∧
  determine_confidence (decimal 1 10) = "High" ∧
  determine_confidence (decimal 35 100) = "Medium".
Proof.
  split; [|split; [|by vm_compute]].
  - intros predictor now request trace label p H.
    eexists. split; [by apply predict_responds|done].
  - intros p. repeat case_bool_decide.
    + by apply determine_confidence_High.
    + by apply determine_confidence_Medium.
    + by apply determine_confidence_Low.
Qed.

(** ** binary64 conversion of integers *)

Section of_Z.

Local Open Scope Z_scope.

Lemma digits2_pos_size p : digits2_pos p = Pos.size p.
Proof. induction p; simpl; congruence. Qed.

Lemma digits2_pos_gt p : Zpos p < 2 ^ Zpos (digits2_pos p).
Proof.
  rewrite digits2_pos_size. pose proof (Pos.size_gt p) as H.
  apply Pos2Z.pos_lt_pos in H. by rewrite Pos2Z.inj_pow in H.
Qed.

Lemma digits2_pos_le p : 2 ^ Zpos (digits2_pos p) <= 2 * Zpos p.
Proof.
  rewrite digits2_pos_size. pose proof (Pos.size_le p) as H.
  apply Pos2Z.pos_le_pos in H. by rewrite Pos2Z.inj_pow in H.
Qed.

Lemma Zdigits2_le m k : 0 <= m < 2 ^ k → 0 <= k → Zdigits2 m <= k.
Proof.
  intros [H0 H] Hk. destruct m as [|p|p]; simpl; try lia.
  pose proof (digits2_pos_le p) as Hle.
  destruct (Z_le_gt_dec (Zpos (digits2_pos p)) k) as [|Hgt]; [assumption|].
  exfalso.
  assert (2 ^ (k + 1) <= 2 ^ Zpos (digits2_pos p)) by (apply Z.pow_le_mono_r; lia).
  rewrite Z.pow_add_r in * by lia. lia.
Qed.

Lemma shr_1_m mrs : 0 <= shr_m mrs → 0 <= shr_m (shr_1 mrs) <= shr_m mrs.
Proof. destruct mrs as [m r s]. simpl. destruct m as [|[p|p|]|p]; simpl; lia. Qed.

Lemma iter_shr_1_m n mrs :
  0 <= shr_m mrs → 0 <= shr_m (SpecFloat.iter_pos shr_1 n mrs) <= shr_m mrs.
Proof.
  revert mrs. induction n as [n IH|n IH|]; intros mrs H; simpl.
  - pose proof (shr_1_m mrs H) as H1.
    pose proof (IH _ (proj1 H1)) as H2. pose proof (IH _ (proj1 H2)) as H3. lia.
  - pose proof (IH _ H) as H2. pose proof (IH _ (proj1 H2)) as H3. lia.
  - by apply shr_1_m.
Qed.

Lemma shr_fexp_bound m e l k :
  0 <= m < 2 ^ k → 0 <= k → -1074 <= e →
  0 <= shr_m (shr_fexp prec emax m e l).1 <= m ∧
  e <= (shr_fexp prec emax m e l).2 <= Z.max e (k + e - 53).
Proof.
  intros Hm Hk He. unfold shr_fexp, shr.
  pose proof (Zdigits2_le m k Hm Hk) as Hd.
  assert (Hr : shr_m (shr_record_of_loc m l) = m) by (by destruct l as [|[]]).
  unfold fexp, emin, prec, emax. change IntDef.Z.max with Z.max.
  destruct (Z.max (Zdigits2 m + e - 53) (3 - 1024 - 53) - e) as [|p|p] eqn:E; simpl.
  - rewrite Hr. lia.
  - pose proof (iter_shr_1_m p (shr_record_of_loc m l)) as H. rewrite Hr in H. lia.
  - rewrite Hr. lia.
Qed.

Lemma round_nearest_even_bound m l :
  0 <= m → m <= round_nearest_even m l <= m + 1.
Proof.
  intros H. unfold round_nearest_even.
  destruct l as [|[]]; try lia. destruct (Z.even m); lia.
Qed.

Lemma binary_round_aux_finite sx m e k :
  0 <= m < 2 ^ k → 0 <= k → -1074 <= e → Z.max e (k + e - 53) + k <= 900 →
  is_finite (binary_round_aux prec emax sx m e loc_Exact).
Proof.
  intros Hm Hk He Hb. unfold binary_round_aux.
  pose proof (shr_fexp_bound m e loc_Exact k Hm Hk He) as [H1 H1e].
  destruct (shr_fexp prec emax m e loc_Exact) as [mrs' e']. simpl in H1, H1e.
  pose proof (round_nearest_even_bound (shr_m mrs') (loc_of_shr_record mrs') (proj1 H1)) as H2.
  set (m' := round_nearest_even _ _) in *.
  assert (Hm' : 0 <= m' < 2 ^ (k + 1)) by (rewrite Z.pow_add_r by lia; lia).
  pose proof (shr_fexp_bound m' e' loc_Exact (k + 1) Hm' ltac:(lia) ltac:(lia)) as [H3 H3e].
  destruct (shr_fexp prec emax m' e' loc_Exact) as [mrs'' e'']. simpl in H3, H3e.
  destruct (shr_m mrs'') as [|p|p]; [done| |lia].
  destruct (Z.leb_spec e'' (emax - prec)); [done|]. unfold emax, prec in *. lia.
Qed.

Lemma iter_xO_digits d m : digits2_pos (Pos.iter xO m d) = (digits2_pos m + d)%positive.
Proof.
  induction d as [|d IH] using Pos.peano_ind.
  - simpl. lia.
  - rewrite Pos.iter_succ. simpl. rewrite IH. lia.
Qed.

Lemma binary_round_finite sx p :
  Zpos p < 2 ^ 64 → is_finite (binary_round prec emax sx p 0).
Proof.
  intros Hp. unfold binary_round, shl_align.
  assert (Hd : Zpos (digits2_pos p) <= 64) by (apply (Zdigits2_le (Zpos p) 64); lia).
  destruct (fexp prec emax (Z.pos (digits2_pos p) + 0) - 0) as [|q|q] eqn:E;
    unfold fexp, emin, prec, emax in E; change IntDef.Z.max with Z.max in E.
  - apply (binary_round_aux_finite _ _ _ 64); lia.
  - apply (binary_round_aux_finite _ _ _ 64); lia.
  - apply (binary_round_aux_finite _ _ _ 64);
      try (unfold fexp, emin, prec, emax; change IntDef.Z.max with Z.max; lia).
    pose proof (digits2_pos_gt (Pos.iter xO p q)) as Hlt.
    rewrite iter_xO_digits in Hlt. split; [lia|].
    eapply Z.lt_le_trans; [exact Hlt|apply Z.pow_le_mono_r; lia].
Qed.

(** An int that numpy holds as [int64] or [uint64] converts to a finite
    float: no [OverflowError], and nothing for [nan_to_num] to clamp. *)
Lemma of_Z_finite z : np.fits_integer z → is_finite (of_Z z).
Proof.
  unfold np.fits_integer.
  intros [H1%Is_true_true%Z.leb_le H2%Is_true_true%Z.ltb_lt]%andb_True.
  unfold of_Z. destruct z as [|p|p]; simpl; [done| |];
    apply binary_round_finite; lia.
Qed.

End of_Z.

(** ** Dictionaries *)

Lemma getitem_Ok_elem (d : dict) k v : getitem d k = Ok v → (k, v) ∈ d.
Proof.
  induction d as [|[k' v'] d IH]; simpl; [done|].
  case_decide as Hk.
  - intros [= ->]. subst. left.
  - intros H. right. by apply IH.
Qed.

Lemma getitem_key (d : dict) k : k ∈ keys d → ∃ v, getitem d k = Ok v.
Proof.
  unfold keys. induction d as [|[k' v'] d IH]; simpl.
  - by intros ?%elem_of_nil.
  - intros [->|H]%elem_of_cons.
    + exists v'. by rewrite decide_True.
    + case_decide; [by eexists|by apply IH].
Qed.

Lemma getitem_NoDup (d : dict) k v :
  NoDup (keys d) → (k, v) ∈ d → getitem d k = Ok v.
Proof.
  unfold keys. induction d as [|[k' v'] d IH]; simpl.
  - by intros _ ?%elem_of_nil.
  - intros [Hk' Hd]%NoDup_cons [[= -> ->]|H]%elem_of_cons.
    + by rewrite decide_True.
    + rewrite decide_False; [by apply IH|].
      intros ->. apply Hk'. apply list_elem_of_fmap. by exists (k, v).
Qed.


(** ** validate_features *)

Lemma elem_of_missing features required name :
  name ∈ missing features required ↔ name ∈ required ∧ name ∉ keys features.
Proof. unfold missing. set_solver. Qed.

Lemma missing_empty features required :
  missing features required = ∅ ↔ complete features required.
Proof.
  unfold complete. rewrite Forall_forall. split.
  - intros H name Hr. destruct (decide (name ∈ keys features)) as [|Hn]; [done|].
    assert (name ∈ missing features required) as Hm by by apply elem_of_missing.
    rewrite H in Hm. by apply not_elem_of_empty in Hm.
  - intros H. apply leibniz_equiv, elem_of_equiv_empty. intros name.
    rewrite elem_of_missing. intros [Hr Hn]. by apply Hn, H.
Qed.

Lemma validate_features_complete features required :
  complete features required →
  validate_features features required = check_items features.
Proof.
  intros H%missing_empty. unfold validate_features. fold (missing features required).
  by rewrite decide_False by (by intros []).
Qed.

Lemma validate_features_incomplete features required :
  ¬ complete features required →
  validate_features features required =
    Raise (ValueError (MissingRequiredFeatures (missing features required))).
Proof.
  intros H. unfold validate_features. fold (missing features required).
  rewrite decide_True; [done|]. by rewrite missing_empty.
Qed.


Lemma check_item_offending name value :
  offending value → check_item name value = Raise (ValueError (value_error name value)).
Proof.
  destruct value as [f|z|ty [f|]]; simpl; [| done | |done].
  all: unfold check_item; simpl; by destruct (is_nan f), (is_inf f).
Qed.


Lemma check_items_first items name value items' :
  Forall passes items →
  check_items (items ++ (name, value) :: items') =
    (_ ← check_item name value; check_items items').
Proof.
  induction 1 as [|[name' value'] items H _ IH]; simpl; [done|].
  unfold passes in H. simpl in H. by rewrite H.
Qed.


(** ** preprocess_input *)

Lemma select_complete features required :
  complete features required →
  ∃ values, select features required = Ok values ∧
            Forall2 (λ name v, getitem features name = Ok v) required values.
Proof.
  unfold complete. induction 1 as [|name names Hname _ (vs & Hvs & HF)]; simpl.
  - by exists [].
  - destruct (getitem_key features name Hname) as [v Hv].
    exists (v :: vs). rewrite Hv, Hvs. split; [done|by constructor].
Qed.

Lemma to_float64_finite value :
  finite_numeric value → ∃ x, np.to_float64 value = Ok x ∧ is_finite x.
Proof.
  destruct value as [f|z|ty o]; simpl; [by eexists| |done].
  intros H%of_Z_finite. exists (of_Z z). split; [|done].
  unfold is_finite in H. by destruct (is_nan (of_Z z)), (is_inf (of_Z z)).
Qed.




Lemma nan_to_num_finite (a : np.ndarray) :
  Forall (λ x, is_finite x) a → np.nan_to_num a = a.
Proof.
  unfold np.nan_to_num. induction 1 as [|x a Hx _ IH]; [done|].
  rewrite fmap_cons, IH. unfold is_finite in Hx. by destruct (is_nan x), (is_inf x).
Qed.

Lemma preprocess_input_Ok features required a :
  preprocess_input features required = Ok a →
  validate_features features required = Ok () ∧
  ∃ values feature_array,
    select features required = Ok values ∧
    np.array values = Ok feature_array ∧
    a = np.nan_to_num feature_array.
Proof.
  unfold preprocess_input. destruct (validate_features _ _) as [[]|]; simpl; [|done].
  destruct (select _ _) as [values|]; simpl; [|done].
  destruct (np.array values) as [feature_array|] eqn:E; simpl; [|done].
  intros [= <-]. split; [done|]. by exists values, feature_array.
Qed.


Lemma check_items_offending (items : dict) :
  Exists (λ item, offending item.2) items → is_Ok (check_items items) = false.
Proof.
  induction items as [|[name value] items IH]; intros H.
  - by apply Exists_nil in H.
  - simpl. destruct (check_item name value) as [[]|e] eqn:E; simpl; [|done].
    apply Exists_cons in H as [H|H]; [|by apply IH].
    by rewrite (check_item_offending name value H) in E.
Qed.


(** ** The claims on validation and ordering *)




(** C3. When the feature dictionary lacks names of the contract, validation
    raises the missing-features [ValueError], whose message lists exactly the
    names of the contract that are absent: all of them. *)
Theorem missing_features_are_all_reported features required :
  (∃ name, name ∈ required ∧ name ∉ keys features) →
  ∃ names,
    validate_features features required
      = Raise (ValueError (MissingRequiredFeatures names)) ∧
    ∀ name, name ∈ names ↔ name ∈ required ∧ name ∉ keys features.
Proof.
  intros (name & Hr & Hk). exists (missing features required). split.
  - apply validate_features_incomplete. intros Hc. apply Hk.
    by apply (proj1 (Forall_forall _ _) Hc).
  - intros. apply elem_of_missing.
Qed.

Lemma missing_features_are_all_reported_witness :
  ∃ names,
    validate_features [("fwd_packets", PyFloat (decimal 3 1))]
                      ["duration"; "fwd_packets"; "bwd_packets"]
      = Raise (ValueError (MissingRequiredFeatures names)) ∧
    "duration" ∈ names ∧ "bwd_packets" ∈ names ∧ "fwd_packets" ∉ names.
Proof.
  destruct (missing_features_are_all_reported
              [("fwd_packets", PyFloat (decimal 3 1))]
              ["duration"; "fwd_packets"; "bwd_packets"]) as (names & Hv & Hn).
  - exists "duration". split; compute_done.
  - exists names. split; [exact Hv|]. rewrite !Hn.
    repeat split; compute_done.
Defined.

(** C10. When the feature dictionary both lacks a name of the contract and
    holds an offending value (NaN, infinite or not convertible to a number),
    validation raises the missing-features error, although the loop over the
    values would raise too: the names are checked before any value. *)
Theorem missing_reported_before_invalid features required :
  (∃ name, name ∈ required ∧ name ∉ keys features) →
  Exists (λ item, offending item.2) features →
  validate_features features required
    = Raise (ValueError (MissingRequiredFeatures (missing features required))) ∧
  is_Ok (check_items features) = false.
Proof.
  intros (name & Hr & Hk) Hoff. split; [|by apply check_items_offending].
  apply validate_features_incomplete. intros Hc. apply Hk.
  by apply (proj1 (Forall_forall _ _) Hc).
Qed.

Lemma missing_reported_before_invalid_witness :
  validate_features [("duration", PyFloat S754_nan)] example_contract
    = Raise (ValueError (MissingRequiredFeatures {["fwd_packets"]})).
Proof.
  destruct (missing_reported_before_invalid
              [("duration", PyFloat S754_nan)] example_contract) as [Hv _].
  - exists "fwd_packets". split; compute_done.
  - compute_done.
  - rewrite Hv. reflexivity.
Defined.

(** C4, as stated, fails: a value that [float()] does not convert is reported
    with its type, and the message does not hold the value. Here "duration"
    holds a [str] that is not a number. *)
Lemma not_numeric_is_reported_by_type :
  let features := [("duration", PyOther "str" None); ("fwd_packets", PyFloat (decimal 3 1))] in
  complete features example_contract ∧
  validate_features features example_contract
    = Raise (ValueError (MustBeNumeric "duration" "str")) ∧
  ∀ value, validate_features features example_contract
             ≠ Raise (ValueError (HasInvalidValue "duration" value)).
Proof. split; [compute_done|]. split; [reflexivity|]. intros value. discriminate. Qed.

(** C4, amended. When the feature dictionary holds all the names of the
    contract, the first offending value in iteration order, the items before
    it passing the check, makes validation raise a [ValueError] that names its
    feature: with the value when it is NaN or infinite (the float it converts
    to), with the type of the value when [float()] does not convert it. *)
Theorem first_offending_value_is_reported features required items name value items' :
  complete features required →
  features = items ++ (name, value) :: items' →
  Forall passes items →
  offending value →
  validate_features features required = Raise (ValueError (value_error name value)) ∧
  (∀ f, value = PyFloat f → value_error name value = HasInvalidValue name (PyFloat f)) ∧
  (∀ ty f, value = PyOther ty (Some f) →
     value_error name value = HasInvalidValue name (PyFloat f)) ∧
  (∀ ty, value = PyOther ty None → value_error name value = MustBeNumeric name ty).
Proof.
  intros Hc -> Hitems Hoff. split; [|by repeat split; intros; subst].
  rewrite validate_features_complete by done.
  rewrite check_items_first by done.
  by rewrite check_item_offending.
Qed.

Lemma first_offending_value_is_reported_witness :
  validate_features
    [("duration", PyFloat (decimal 100 1)); ("fwd_packets", PyFloat (S754_infinity false));
     ("protocol", PyOther "NoneType" None)]
    example_contract
  = Raise (ValueError (HasInvalidValue "fwd_packets" (PyFloat (S754_infinity false)))).
Proof.
  refine (proj1 (first_offending_value_is_reported _ example_contract
                   [("duration", PyFloat (decimal 100 1))]
                   "fwd_packets" (PyFloat (S754_infinity false))
                   [("protocol", PyOther "NoneType" None)] _ _ _ _)).
  - compute_done.
  - reflexivity.
  - repeat constructor.
  - exact I.
Defined.




(** ** The monad of traced computations *)

Lemma traced_bind_Ok {A B} (f : A → traced B) trace a :
  ((trace, Ok a) ≫= f) = (trace ++ (f a).1, (f a).2).
Proof. done. Qed.

Lemma traced_bind_Raise {A B} (f : A → traced B) trace e :
  ((trace, Raise e) ≫= f) = (trace, Raise e).
Proof. done. Qed.

Lemma traced_bind_lift_Ok {A B} (f : A → traced B) a : (lift (Ok a) ≫= f) = f a.
Proof. unfold lift. rewrite traced_bind_Ok. by destruct (f a). Qed.

Lemma traced_bind_ret_r {A} (m : traced A) : (m ≫= mret) = m.
Proof.
  destruct m as [trace [a|e]]; [|done].
  rewrite traced_bind_Ok. simpl. by rewrite app_nil_r.
Qed.

(** ** ModelPredictor.predict *)


(** With an unknown model type the scaler has already transformed the row
    when the exception is raised; no classifier is called. *)
Lemma predict_unknown_model_type self the_scaler X X' model_type :
  loaded self →
  ModelPredictor.scaler self = Some the_scaler →
  sklearn.transform the_scaler X = Ok X' →
  model_type ∉ ["knn"; "logistic_regression"] →
  ModelPredictor.predict self X model_type
    = ([Transform X], Raise (ValueError (UnknownModelType model_type))).
Proof.
  intros (_ & [lr Hlr] & [k Hk]) Hs HX Ht. unfold ModelPredictor.predict.
  rewrite Hs, Hlr, Hk, HX. unfold call. rewrite traced_bind_Ok. simpl.
  rewrite !decide_False; [done|set_solver..].
Qed.

(** The validator of [PredictionRequest] rejects the same model types before
    any request exists, hence before the handler [predict] runs. *)
Lemma new_PredictionRequest_unknown features model_type :
  model_type ∉ ["knn"; "logistic_regression"] →
  new_PredictionRequest features model_type = Raise (ValueError ModelTypeMustBe).
Proof.
  intros H. unfold new_PredictionRequest, validate_model_type.
  by rewrite decide_True.
Qed.

Lemma predict_selected self the_scaler model X X' model_type label :
  loaded self →
  ModelPredictor.scaler self = Some the_scaler →
  selected self model_type = Some model →
  sklearn.transform the_scaler X = Ok X' →
  sklearn.predict model X' = Ok label →
  sklearn.predict_proba model = None →
  ∃ which,
    ModelPredictor.predict self X model_type
      = ([Transform X; Predict which X'], Ok (label, ModelPredictor.half)).
Proof.
  intros (_ & [lr Hlr] & [k Hk]) Hs Hsel HX Hl Hp.
  unfold ModelPredictor.predict, selected in *.
  rewrite Hs, Hlr, Hk, HX in *. unfold call. rewrite traced_bind_Ok. simpl.
  destruct (decide (model_type = "knn")) as [->|?];
    [|destruct (decide (model_type = "logistic_regression")) as [->|?]; [|done]].
  all: injection Hsel as ->; simpl; rewrite Hl, Hp; simpl.
  all: eexists; by destruct (label =? 1)%Z.
Qed.

(** ** The claims on prediction *)

Lemma predict_one_preprocessed predictor features model_type X :
  preprocess_input features (ModelPredictor.feature_names predictor) = Ok X →
  predict_one predictor features model_type
    = ModelPredictor.predict predictor X model_type.
Proof.
  intros H. unfold predict_one. rewrite H.
  apply (traced_bind_lift_Ok (λ a, ModelPredictor.predict predictor a model_type)).
Qed.

(** C6 does not hold on the batch path. [BatchPredictionRequest] has no
    validator for [model_type], and [ModelPredictor.predict] selects the model
    after it has scaled the row: on the example input with the model type
    "unknown" the scaler is called, then the exception is raised (HTTP 400). *)
Lemma unknown_model_type_reaches_scaler :
  predict_batch (Some example_predictor)
      {| data := [example_features]; batch_model_type := "unknown" |}
    = ([Transform [decimal 100 1; decimal 3 1]],
       HTTPException 400 (DetailStr (ValueError (UnknownModelType "unknown")))) ∧
  predict_one example_predictor example_features "unknown"
    = ([Transform [decimal 100 1; decimal 3 1]],
       Raise (ValueError (UnknownModelType "unknown"))) ∧
  predict_one example_predictor [] "unknown"
    = ([], Raise (ValueError (MissingRequiredFeatures {["duration"; "fwd_packets"]}))) ∧
  (predict_batch (Some example_predictor) {| data := []; batch_model_type := "unknown" |}).2
    = Respond {| predictions := []; probabilities := []; batch_model_used := "unknown";
                 total_count := 0; attack_count := 0; normal_count := 0 |}.
Proof. repeat split; by vm_compute. Qed.

(** C9. When the selected classifier has no [predict_proba], the probability
    returned with the label is the fixed 0.5, whatever the label. *)
Theorem probability_defaults_to_half
    predictor the_scaler model features model_type X X' label :
  loaded predictor →
  ModelPredictor.scaler predictor = Some the_scaler →
  selected predictor model_type = Some model →
  preprocess_input features (ModelPredictor.feature_names predictor) = Ok X →
  sklearn.transform the_scaler X = Ok X' →
  sklearn.predict model X' = Ok label →
  sklearn.predict_proba model = None →
  (predict_one predictor features model_type).2 = Ok (label, decimal 5 10).
Proof.
  intros Hl Hs Hsel HX HX' Hlabel Hp.
  rewrite (predict_one_preprocessed _ _ _ X HX).
  destruct (predict_selected predictor the_scaler model X X' model_type label)
    as [which ->]; done.
Qed.

Lemma probability_defaults_to_half_witness :
  (predict_one example_predictor example_features "logistic_regression").2
    = Ok (0%Z, decimal 5 10).
Proof.
  apply (probability_defaults_to_half example_predictor example_scaler
           example_without_proba example_features "logistic_regression"
           [decimal 100 1; decimal 3 1] [decimal 100 1; decimal 3 1] 0).
  - compute_done.
  - reflexivity.
  - reflexivity.
  - reflexivity.
  - reflexivity.
  - reflexivity.
  - reflexivity.
Defined.

(** ** The batch handler *)

Lemma batch_loop_predict_each predictor model_type data predictions probabilities :
  batch_loop predictor model_type data predictions probabilities
    = (rs ← predict_each predictor model_type data;
       mret (predictions ++ rs.*1, probabilities ++ rs.*2)).
Proof.
  revert predictions probabilities.
  induction data as [|features data' IH]; intros predictions probabilities; simpl.
  - unfold mret, traced_ret. rewrite traced_bind_Ok. simpl. by rewrite !app_nil_r.
  - destruct (predict_one predictor features model_type) as [trace [r|e]]; [|done].
    rewrite !traced_bind_Ok. rewrite IH.
    destruct (predict_each predictor model_type data') as [trace' [rs|e]]; [|done].
    rewrite !traced_bind_Ok. cbn. by rewrite <- !app_assoc, !app_nil_r.
Qed.

Lemma predict_each_length predictor model_type data trace rs :
  predict_each predictor model_type data = (trace, Ok rs) → length rs = length data.
Proof.
  revert trace rs. induction data as [|features data' IH]; intros trace rs; simpl.
  - by intros [= _ <-].
  - destruct (predict_one predictor features model_type) as [trace1 [r|e]]; [|done].
    rewrite traced_bind_Ok.
    destruct (predict_each predictor model_type data') as [trace2 [rs'|e]] eqn:E; [|done].
    rewrite traced_bind_Ok. simpl. intros [= _ <-]. simpl. f_equal. by eapply IH.
Qed.

Lemma sum_count_attacks predictions :
  Forall (λ label, label = 0 ∨ label = 1)%Z predictions →
  sum predictions = count_attacks predictions.
Proof.
  unfold sum, count_attacks, len.
  induction 1 as [|label predictions Hl _ IH]; [done|].
  cbn [foldr]. rewrite IH. destruct Hl as [-> | ->].
  - by rewrite filter_cons_False.
  - rewrite filter_cons_True by done. cbn [length]. lia.
Qed.

Lemma predict_batch_Respond predictor request trace response :
  predict_batch (Some predictor) request = (trace, Respond response) →
  ∃ rs, predict_each predictor (batch_model_type request) (data request) = (trace, Ok rs) ∧
        predictions response = rs.*1 ∧
        probabilities response = rs.*2 ∧
        total_count response = len rs.*1 ∧
        attack_count response = sum rs.*1 ∧
        normal_count response = (len rs.*1 - sum rs.*1)%Z.
Proof.
  unfold predict_batch. rewrite batch_loop_predict_each.
  destruct (predict_each _ _ _) as [trace' [rs|e]].
  - rewrite !traced_bind_Ok. simpl. rewrite !app_nil_r.
    intros [= <- <-]. by exists rs.
  - rewrite !traced_bind_Raise. simpl. by destruct e.
Qed.

Lemma predict_each_pointwise predictor model_type data trace rs :
  predict_each predictor model_type data = (trace, Ok rs) →
  Forall2 (λ features r, (predict_one predictor features model_type).2 = Ok r) data rs ∧
  trace = concat ((λ features, (predict_one predictor features model_type).1) <$> data).
Proof.
  revert trace rs. induction data as [|features data' IH]; intros trace rs; simpl.
  - intros [= <- <-]. split; [constructor|done].
  - destruct (predict_one predictor features model_type) as [trace1 [r|e]] eqn:E1; [|done].
    rewrite traced_bind_Ok.
    destruct (predict_each predictor model_type data') as [trace2 [rs'|e]]; [|done].
    rewrite traced_bind_Ok. simpl. intros [= <- <-].
    destruct (IH trace2 rs' eq_refl) as [HF ->].
    split; [constructor; [by rewrite E1|done]|by rewrite app_nil_r].
Qed.

Lemma predict_each_all_Ok predictor model_type data :
  Forall (λ features, is_Ok (predict_one predictor features model_type).2 = true) data →
  ∃ trace rs, predict_each predictor model_type data = (trace, Ok rs).
Proof.
  induction 1 as [|features data' H _ (trace & rs & IH)]; simpl; [by eexists _, _|].
  destruct (predict_one predictor features model_type) as [trace1 [r|e]]; [|done].
  rewrite traced_bind_Ok, IH, traced_bind_Ok. simpl. by eexists _, _.
Qed.

Lemma predict_batch_predict_each predictor request trace rs :
  predict_each predictor (batch_model_type request) (data request) = (trace, Ok rs) →
  predict_batch (Some predictor) request
    = (trace, Respond {| predictions := rs.*1;
                         probabilities := rs.*2;
                         batch_model_used := batch_model_type request;
                         total_count := len rs.*1;
                         attack_count := sum rs.*1;
                         normal_count := len rs.*1 - sum rs.*1 |}).
Proof.
  intros H. unfold predict_batch. rewrite batch_loop_predict_each, H.
  rewrite !traced_bind_Ok. simpl. by rewrite !app_nil_r.
Qed.

(** C7. The batch handler applies [predict_one] to each feature dictionary in
    turn and collects the labels and the probabilities in input order: the
    label and the probability at each position of the response are those that
    [predict_one] returns for the dictionary at that position, the calls made
    are those of [predict_one] on each dictionary in turn, and the handler
    responds whenever [predict_one] returns for every dictionary. On a list of
    one element it answers the label and the probability of [predict_one]; in
    every response [attack_count + normal_count = total_count = len(data)],
    and [attack_count] is the number of records labelled 1 when the labels are
    0 or 1. *)
Theorem batch_applies_predict_one predictor model_type :
  model_type ∈ ["knn"; "logistic_regression"] →
  (∀ data,
     batch_loop predictor model_type data [] []
       = (rs ← predict_each predictor model_type data; mret (rs.*1, rs.*2))) ∧
  (∀ features trace label p,
     predict_one predictor features model_type = (trace, Ok (label, p)) →
     ∃ response,
       predict_batch (Some predictor)
           {| data := [features]; batch_model_type := model_type |}
         = (trace, Respond response) ∧
       predictions response = [label] ∧ probabilities response = [p]) ∧
  (∀ data trace response,
     predict_batch (Some predictor) {| data := data; batch_model_type := model_type |}
       = (trace, Respond response) →
     (attack_count response + normal_count response = total_count response)%Z ∧
     total_count response = len data ∧
     length (predictions response) = length data ∧
     length (probabilities response) = length data ∧
     (Forall (λ label, label = 0 ∨ label = 1)%Z (predictions response) →
      attack_count response = count_attacks (predictions response))) ∧
  (∀ data trace response,
     predict_batch (Some predictor) {| data := data; batch_model_type := model_type |}
       = (trace, Respond response) →
     (∀ i features, data !! i = Some features →
        ∃ label p,
          (predict_one predictor features model_type).2 = Ok (label, p) ∧
          predictions response !! i = Some label ∧
          probabilities response !! i = Some p) ∧
     trace = concat ((λ features, (predict_one predictor features model_type).1) <$> data) ∧
     batch_model_used response = model_type) ∧
  (∀ data,
     Forall (λ features, is_Ok (predict_one predictor features model_type).2 = true) data →
     ∃ trace response,
       predict_batch (Some predictor) {| data := data; batch_model_type := model_type |}
         = (trace, Respond response)).
Proof.
  intros _. split; [|split; [|split; [|split]]].
  - intros data. by rewrite batch_loop_predict_each.
  - intros features trace label p H. unfold predict_batch. simpl.
    rewrite H. rewrite !traced_bind_Ok. simpl. rewrite !app_nil_r.
    by eexists.
  - intros data trace response (rs & Hrs & Hp & Hq & Ht & Ha & Hn)%predict_batch_Respond.
    simpl in Hrs. apply predict_each_length in Hrs.
    rewrite Hp, Hq, Ht, Ha, Hn. unfold len. rewrite !length_fmap, Hrs.
    repeat split; [lia|]. by apply sum_count_attacks.
  - intros data trace response H.
    pose proof H as (rs & Hrs & Hp & Hq & _)%predict_batch_Respond. simpl in Hrs.
    rewrite (predict_batch_predict_each predictor
               {| data := data; batch_model_type := model_type |} trace rs Hrs) in H.
    injection H as <-. simpl.
    destruct (predict_each_pointwise _ _ _ _ _ Hrs) as [HF Htrace].
    split; [|by split].
    intros i features Hi.
    destruct (Forall2_lookup_l _ _ _ _ _ HF Hi) as ([label p] & Hr & Hone).
    exists label, p. rewrite !list_lookup_fmap, Hr. by simpl.
  - intros data (trace & rs & Hrs)%predict_each_all_Ok.
    eexists _, _. by apply (predict_batch_predict_each _ {| data := data |}).
Qed.

Lemma batch_applies_predict_one_witness :
  predict_batch (Some example_predictor)
      {| data := [example_features; example_features]; batch_model_type := "knn" |}
    = ([Transform [decimal 100 1; decimal 3 1];
        Predict the_knn [decimal 100 1; decimal 3 1];
        PredictProba the_knn [decimal 100 1; decimal 3 1];
        Transform [decimal 100 1; decimal 3 1];
        Predict the_knn [decimal 100 1; decimal 3 1];
        PredictProba the_knn [decimal 100 1; decimal 3 1]],
       Respond {| predictions := [1; 1]%Z;
                  probabilities := [decimal 95 100; decimal 95 100];
                  batch_model_used := "knn";
                  total_count := 2; attack_count := 2; normal_count := 0 |}) ∧
  batch_loop example_predictor "knn" [example_features; example_features] [] []
    = (rs ← predict_each example_predictor "knn" [example_features; example_features];
       mret (rs.*1, rs.*2)).
Proof.
  split; [by vm_compute|].
  apply (batch_applies_predict_one example_predictor "knn"). compute_done.
Defined.

(** ** Loading the artifacts *)



(** When the four files are there, the registry is loaded. *)
Lemma load_models_complete model_dir s lr k md :
  scaler_file model_dir = Some s →
  logistic_regression_file model_dir = Some lr →
  knn_file model_dir = Some k →
  model_metadata_file model_dir = Some md →
  ∃ predictor, load_models model_dir = Ok predictor ∧ loaded predictor ∧
               ModelPredictor.feature_names predictor = default [] (md_feature_names md).
Proof.
  intros Hs Hlr Hk Hmd. unfold load_models, ModelPredictor.load. simpl.
  rewrite Hs. simpl. rewrite Hlr, Hk. simpl. rewrite Hmd. simpl.
  eexists. split; [done|]. by repeat split.
Qed.





(** When only the metadata file is absent, [load] raises after it has set the
    scaler and both classifiers on the object; [load_models] raises too and
    returns no object. *)
Lemma load_without_metadata model_dir s lr k :
  scaler_file model_dir = Some s →
  logistic_regression_file model_dir = Some lr →
  knn_file model_dir = Some k →
  model_metadata_file model_dir = None →
  loaded (ModelPredictor.load (ModelPredictor.__init__ model_dir)).1 ∧
  load_models model_dir = Raise (FileNotFoundError (NotFoundAt model_metadata_json)).
Proof.
  intros Hs Hlr Hk Hmd. unfold load_models, loaded, ModelPredictor.load. simpl.
  rewrite Hs. simpl. rewrite Hlr, Hk. simpl. rewrite Hmd. simpl.
  by repeat split.
Qed.

(** * Further properties *)

(** ** validate_features: what passes and what is raised *)

Lemma check_item_accepted name value : check_item name value = Ok () ↔ accepted value.
Proof.
  destruct value as [f|z|ty [f|]]; unfold check_item, accepted, is_finite; simpl.
  - by destruct (is_nan f), (is_inf f).
  - by destruct (np.fits_integer z).
  - by destruct (is_nan f), (is_inf f).
  - done.
Qed.

Lemma check_items_Ok_iff (items : dict) :
  check_items items = Ok () ↔ Forall (λ item, accepted item.2) items.
Proof.
  induction items as [|[name value] items IH]; simpl.
  - split; [by constructor|done].
  - rewrite Forall_cons. simpl. rewrite <- IH, <- (check_item_accepted name).
    destruct (check_item name value) as [[]|e]; simpl; naive_solver.
Qed.

Lemma complete_elem features required :
  complete features required ↔ ∀ name, name ∈ required → name ∈ keys features.
Proof. unfold complete. apply Forall_forall. Qed.

Lemma validate_features_Ok features required :
  validate_features features required = Ok () ↔
  complete features required ∧ Forall (λ item, accepted item.2) features.
Proof.
  destruct (decide (complete features required)) as [Hc|Hc].
  - rewrite validate_features_complete by done. rewrite check_items_Ok_iff. naive_solver.
  - rewrite validate_features_incomplete by done. naive_solver.
Qed.

(** X1. [validate_features] returns without an exception exactly when every
    name of the contract is a key of the dictionary and every value of the
    dictionary, under a contract name or not, is a finite float, an int that
    numpy holds, or an object that [float()] converts to a finite float. *)
Theorem validate_features_succeeds_iff features required :
  validate_features features required = Ok () ↔
  (∀ name, name ∈ required → name ∈ keys features) ∧
  (∀ name value, (name, value) ∈ features → accepted value).
Proof.
  rewrite validate_features_Ok, complete_elem, Forall_forall.
  split; intros [H1 H2]; (split; [done|]).
  - intros name value. apply (H2 (name, value)).
  - intros [name value]. apply H2.
Qed.

Lemma check_items_Raise (items : dict) e :
  check_items items = Raise e →
  ∃ name value, (name, value) ∈ items ∧ check_item name value = Raise e.
Proof.
  induction items as [|[name value] items IH]; simpl; [done|].
  destruct (check_item name value) as [[]|e'] eqn:E; simpl.
  - intros (n & v & Hin & Hc)%IH. exists n, v. split; [by right|done].
  - intros [= ->]. exists name, value. split; [left|done].
Qed.

Lemma check_item_Raise name value e :
  check_item name value = Raise e →
  (offending value ∧ e = ValueError (value_error name value)) ∨
  (∃ z, value = PyInt z ∧ np.fits_integer z = false ∧ e = TypeError UfuncNotSupported).
Proof.
  destruct value as [f|z|ty [f|]]; unfold check_item, offending; simpl.
  - destruct (is_nan f), (is_inf f); simpl; intros [= <-] || done; by left.
  - destruct (np.fits_integer z) eqn:E; simpl; [done|]. intros [= <-]. right. by exists z.
  - destruct (is_nan f), (is_inf f); simpl; intros [= <-] || done; by left.
  - intros [= <-]. by left.
Qed.

(** X2. On a dictionary whose values are instances of [int] or [float],
    every exception of [validate_features] is one of three: the
    missing-features error, with the non-empty set of the absent contract
    names; or, all names being there, the [ValueError] "has invalid value" of
    an item whose value is a NaN or an infinite float; or numpy's [TypeError]
    for an item holding an int outside its integer types. *)
Theorem validate_features_raises features required e :
  Forall (λ item, isinstance_int_float item.2 = true) features →
  validate_features features required = Raise e →
  (e = ValueError (MissingRequiredFeatures (missing features required)) ∧
   missing features required ≠ ∅) ∨
  (complete features required ∧
   ∃ name value, (name, value) ∈ features ∧
     ((∃ f, value = PyFloat f ∧ is_nan f || is_inf f = true ∧
            e = ValueError (HasInvalidValue name (PyFloat f))) ∨
      (∃ z, value = PyInt z ∧ np.fits_integer z = false ∧
            e = TypeError UfuncNotSupported))).
Proof.
  intros Hnum.
  destruct (decide (complete features required)) as [Hc|Hc].
  - rewrite validate_features_complete by done.
    intros (name & value & Hin & Hr%check_item_Raise)%check_items_Raise.
    right. split; [done|]. exists name, value. split; [done|].
    apply (proj1 (Forall_forall _ _) Hnum) in Hin as Hv. simpl in Hv.
    destruct Hr as [[Hoff ->]|Hr]; [|by right].
    left. destruct value as [f|z|ty o]; [|done|done].
    exists f. split; [done|]. split; [|done].
    unfold offending in Hoff. by destruct (is_nan f || is_inf f).
  - rewrite validate_features_incomplete by done. intros [= <-].
    left. split; [done|]. by rewrite missing_empty.
Qed.

Lemma validate_features_raises_witness :
  ∃ name value,
    (name, value) ∈ [("duration", PyInt (2 ^ 70)); ("fwd_packets", PyFloat S754_nan)] ∧
    value = PyInt (2 ^ 70).
Proof.
  destruct (validate_features_raises
              [("duration", PyInt (2 ^ 70)); ("fwd_packets", PyFloat S754_nan)]
              example_contract (TypeError UfuncNotSupported))
    as [[[=] _]|(_ & name & value & Hin & [(f & _ & _ & [=])|(z & -> & _)])].
  - compute_done.
  - reflexivity.
  - exists name, (PyInt z). split; [exact Hin|].
    apply list_elem_of_In in Hin. simpl in Hin.
    destruct Hin as [[= _ <-]|[[=]|[]]]. reflexivity.
Defined.

(** ** preprocess_input: the array and nothing else *)

Lemma to_float64_accepted value :
  accepted value → ∃ x, np.to_float64 value = Ok x ∧ is_finite x.
Proof.
  destruct value as [f|z|ty [f|]]; simpl; [by eexists| |by eexists|done].
  intros H. by apply (to_float64_finite (PyInt z)).
Qed.

Lemma to_float64_builtin_float value : np.to_float64 value = builtin_float value.
Proof. by destruct value as [f|z|ty [f|]]. Qed.

Lemma select_Ok_iff (features : dict) required values :
  select features required = Ok values ↔
  Forall2 (λ name v, getitem features name = Ok v) required values.
Proof.
  revert values. induction required as [|name names IH]; intros values; simpl.
  - split; [intros [= <-]; constructor|by intros ->%Forall2_nil_inv_l].
  - destruct (getitem features name) as [v|e] eqn:Hv; simpl.
    + destruct (select features names) as [vs|e] eqn:Hvs; simpl.
      * split.
        -- intros [= <-]. constructor; [done|by apply IH].
        -- intros (v' & vs' & Hv' & Hvs' & ->)%Forall2_cons_inv_l.
           apply IH in Hvs'. congruence.
      * split; [done|].
        intros (v' & vs' & Hv' & Hvs' & ->)%Forall2_cons_inv_l.
        apply IH in Hvs'. congruence.
    + split; [done|].
      intros (v' & vs' & Hv' & Hvs' & ->)%Forall2_cons_inv_l. congruence.
Qed.

Lemma array_Ok_iff values (a : np.ndarray) :
  np.array values = Ok a ↔ Forall2 (λ v x, np.to_float64 v = Ok x) values a.
Proof.
  revert a. induction values as [|v vs IH]; intros a; simpl.
  - split; [intros [= <-]; constructor|by intros ->%Forall2_nil_inv_l].
  - destruct (np.to_float64 v) as [x|e] eqn:Hx; simpl.
    + destruct (np.array vs) as [xs|e] eqn:Hxs; simpl.
      * split.
        -- intros [= <-]. constructor; [done|by apply IH].
        -- intros (x' & xs' & Hx' & Hxs' & ->)%Forall2_cons_inv_l.
           apply IH in Hxs'. congruence.
      * split; [done|].
        intros (x' & xs' & Hx' & Hxs' & ->)%Forall2_cons_inv_l.
        apply IH in Hxs'. congruence.
    + split; [done|].
      intros (x' & xs' & Hx' & Hxs' & ->)%Forall2_cons_inv_l. congruence.
Qed.

(** The item of [features] that the array holds at the place of [name]. *)
Lemma preprocess_input_Ok_iff features required (a : np.ndarray) :
  preprocess_input features required = Ok a ↔
  validate_features features required = Ok () ∧
  Forall2 (λ name x, ∃ v, getitem features name = Ok v ∧ builtin_float v = Ok x)
          required a.
Proof.
  split.
  - intros (Hv & values & ordered & Hs%select_Ok_iff & Ha%array_Ok_iff & ->)%preprocess_input_Ok.
    split; [done|].
    apply validate_features_Ok in Hv as [_ Hacc].
    assert (Hfin : Forall (λ x, is_finite x) ordered).
    { apply Forall_forall. intros x [i Hi]%list_elem_of_lookup.
      destruct (Forall2_lookup_r _ _ _ _ _ Ha Hi) as (v & Hvi & Hvx).
      destruct (Forall2_lookup_r _ _ _ _ _ Hs Hvi) as (name & _ & Hname).
      apply getitem_Ok_elem in Hname.
      apply (proj1 (Forall_forall _ _) Hacc) in Hname. simpl in Hname.
      destruct (to_float64_accepted v Hname) as (x' & Hx' & Hf). congruence. }
    rewrite nan_to_num_finite by done.
    apply Forall2_same_length_lookup. split.
    { by rewrite (Forall2_length _ _ _ Hs), (Forall2_length _ _ _ Ha). }
    intros i name x Hname Hx.
    destruct (Forall2_lookup_l _ _ _ _ _ Hs Hname) as (v & Hvi & Hgv).
    destruct (Forall2_lookup_l _ _ _ _ _ Ha Hvi) as (x' & Hxi & Hvx).
    exists v. rewrite <- to_float64_builtin_float. split; [done|congruence].
  - intros [Hv HF].
    pose proof Hv as [_ Hacc]%validate_features_Ok.
    assert (∃ values, Forall2 (λ name v, getitem features name = Ok v) required values ∧
                      Forall2 (λ v x, np.to_float64 v = Ok x) values a)
      as (values & Hs & Ha).
    { clear Hv. induction HF as [|name x names xs (v & Hg & Hx) _ (vs & Hs & Ha)].
      - exists []. split; constructor.
      - exists (v :: vs). rewrite <- to_float64_builtin_float in Hx.
        split; by constructor. }
    assert (Hfin : Forall (λ x, is_finite x) a).
    { apply Forall_forall. intros x [i Hi]%list_elem_of_lookup.
      destruct (Forall2_lookup_r _ _ _ _ _ Ha Hi) as (v & Hvi & Hvx).
      destruct (Forall2_lookup_r _ _ _ _ _ Hs Hvi) as (name & _ & Hname).
      apply getitem_Ok_elem in Hname.
      apply (proj1 (Forall_forall _ _) Hacc) in Hname. simpl in Hname.
      destruct (to_float64_accepted v Hname) as (x' & Hx' & Hf). congruence. }
    apply select_Ok_iff in Hs. apply array_Ok_iff in Ha.
    unfold preprocess_input. rewrite Hv. simpl. rewrite Hs. simpl. rewrite Ha. simpl.
    by rewrite nan_to_num_finite.
Qed.

Lemma validate_Ok_preprocess_Ok features required :
  validate_features features required = Ok () →
  ∃ a, preprocess_input features required = Ok a.
Proof.
  intros Hv. pose proof Hv as [Hc Hacc]%validate_features_Ok.
  destruct (select_complete features required Hc) as (values & Hs & Hget).
  assert (∃ a, Forall2 (λ v x, np.to_float64 v = Ok x) values a) as [a Ha].
  { assert (Hval : Forall (λ v, accepted v) values).
    { apply Forall_forall. intros v [i Hi]%list_elem_of_lookup.
      destruct (Forall2_lookup_r _ _ _ _ _ Hget Hi) as (name & _ & Hname).
      apply getitem_Ok_elem in Hname.
      by apply (proj1 (Forall_forall _ _) Hacc) in Hname. }
    clear Hs Hget. induction Hval as [|v vs Hv' _ [xs Hxs]].
    - exists []. constructor.
    - destruct (to_float64_accepted v Hv') as (x & Hx & _).
      exists (x :: xs). by constructor. }
  apply array_Ok_iff in Ha.
  eexists. unfold preprocess_input. rewrite Hv. simpl. rewrite Hs. simpl.
  by rewrite Ha.
Qed.

Lemma numbers_at_lookup features required i name :
  numbers_at features required →
  required !! i = Some name →
  ∀ v, getitem features name = Ok v → isinstance_int_float v = true.
Proof.
  intros Hnum Hi v Hv. unfold numbers_at in Hnum.
  apply (proj1 (Forall_lookup _ _) Hnum) in Hi. by rewrite Hv in Hi.
Qed.

Lemma numbers_at_app features required1 required2 :
  numbers_at features (required1 ++ required2) ↔
  numbers_at features required1 ∧ numbers_at features required2.
Proof. unfold numbers_at. apply Forall_app. Qed.

(** The values that the array is built from, when the values under the
    contract names are ints and floats: each is an int that numpy holds or a
    finite float, and numpy stores its float64. *)
Lemma preprocess_input_numbers features required (a : np.ndarray) :
  numbers_at features required →
  preprocess_input features required = Ok a →
  Forall2 (λ name x, ∃ v, getitem features name = Ok v ∧
                          isinstance_int_float v = true ∧ is_number v ∧
                          np.to_float64 v = Ok x ∧ is_finite x)
          required a.
Proof.
  intros Hnum H. pose proof H as [Hv HF]%preprocess_input_Ok_iff.
  apply validate_features_Ok in Hv as [_ Hacc].
  apply Forall2_same_length_lookup. split; [by apply (Forall2_length _ _ _ HF)|].
  intros i name x Hi Hx.
  destruct (Forall2_lookup_lr _ _ _ _ _ _ HF Hi Hx) as (v & Hv & Hf).
  pose proof (numbers_at_lookup _ _ _ _ Hnum Hi v Hv) as Hinst.
  exists v. rewrite to_float64_builtin_float.
  apply getitem_Ok_elem in Hv as Hin.
  apply (proj1 (Forall_forall _ _) Hacc) in Hin. simpl in Hin.
  destruct (to_float64_accepted v Hin) as (x' & Hx' & Hfin).
  rewrite to_float64_builtin_float in Hx'.
  assert (x' = x) as -> by congruence.
  repeat split; try done. by destruct v.
Qed.

(** X3. When the values under the contract names are instances of [int] or
    [float], [preprocess_input] raises exactly what [validate_features]
    raises: once validation has passed, neither the lookup of a name
    ([KeyError]) nor the conversion to float64 fails, since every value that
    numpy converts is a finite float or an int that it holds. *)
Theorem preprocess_input_raises_iff features required e :
  numbers_at features required →
  (preprocess_input features required = Raise e ↔
   validate_features features required = Raise e) ∧
  (validate_features features required = Ok () →
   ∃ a, preprocess_input features required = Ok a ∧
        Forall2 (λ name x, ∃ v, getitem features name = Ok v ∧
                                isinstance_int_float v = true ∧
                                np.to_float64 v = Ok x)
                required a).
Proof.
  intros Hnum. split; [split|].
  - destruct (validate_features features required) as [[]|e'] eqn:Hv.
    + destruct (validate_Ok_preprocess_Ok features required Hv) as [a ->]. done.
    + unfold preprocess_input. rewrite Hv. simpl. by intros [= ->].
  - intros Hv. unfold preprocess_input. rewrite Hv. by simpl.
  - intros Hv. destruct (validate_Ok_preprocess_Ok features required Hv) as [a Ha].
    exists a. split; [done|].
    eapply Forall2_impl; [by apply preprocess_input_numbers|].
    simpl. intros name x (v & ? & ? & ? & ? & ?). by exists v.
Qed.

Lemma preprocess_input_raises_iff_witness :
  preprocess_input [("duration", PyFloat S754_nan); ("fwd_packets", PyInt 3)]
      example_contract
    = Raise (ValueError (HasInvalidValue "duration" (PyFloat S754_nan))).
Proof.
  refine (proj2 (proj1 (preprocess_input_raises_iff
                   [("duration", PyFloat S754_nan); ("fwd_packets", PyInt 3)]
                   example_contract _ _)) _).
  - compute_done.
  - reflexivity.
Defined.

(** X4. When the values under the contract names are instances of [int] or
    [float], every array that [preprocess_input] returns holds, at the
    position of each contract name, the finite float [float(features[name])]
    of a value that is a float or an int that numpy holds: it has the length
    of the contract, and the final [nan_to_num] has changed nothing. *)
Theorem preprocess_input_returns_floats features required (a : np.ndarray) :
  numbers_at features required →
  preprocess_input features required = Ok a →
  length a = length required ∧
  ∀ i name, required !! i = Some name →
    ∃ v x, getitem features name = Ok v ∧ is_number v ∧
           builtin_float v = Ok x ∧ a !! i = Some x ∧ is_finite x.
Proof.
  intros Hnum H. pose proof (preprocess_input_numbers _ _ _ Hnum H) as HF.
  split; [by rewrite (Forall2_length _ _ _ HF)|].
  intros i name Hi.
  destruct (Forall2_lookup_l _ _ _ _ _ HF Hi) as (x & Hx & v & Hv & _ & Hn & Hf & Hfin).
  exists v, x. rewrite <- to_float64_builtin_float. by repeat split.
Qed.

Lemma preprocess_input_returns_floats_witness :
  let features := [("duration", PyInt 7); ("fwd_packets", PyFloat (decimal 15 10))] in
  preprocess_input features ["fwd_packets"; "duration"] = Ok [decimal 15 10; decimal 7 1] ∧
  length [decimal 15 10; decimal 7 1] = length ["fwd_packets"; "duration"].
Proof.
  split; [reflexivity|].
  apply (preprocess_input_returns_floats
           [("duration", PyInt 7); ("fwd_packets", PyFloat (decimal 15 10))]
           ["fwd_packets"; "duration"]).
  - compute_done.
  - reflexivity.
Defined.

Lemma preprocess_input_Permutation_1 (features features' : dict) required a :
  features ≡ₚ features' →
  NoDup (keys features') →
  preprocess_input features required = Ok a →
  preprocess_input features' required = Ok a.
Proof.
  intros Hp Hnd [Hv HF]%preprocess_input_Ok_iff. apply preprocess_input_Ok_iff.
  apply validate_features_Ok in Hv as [Hc Hacc]. split.
  - apply validate_features_Ok. split; [|by rewrite <- Hp].
    unfold complete, keys in *. eapply Forall_impl; [exact Hc|]. simpl.
    intros name Hname. by rewrite <- Hp.
  - eapply Forall2_impl; [exact HF|]. simpl.
    intros name x (v & Hv%getitem_Ok_elem & Hx). exists v. split; [|done].
    apply getitem_NoDup; [done|]. by rewrite <- Hp.
Qed.

(** X5. The order of the items of the feature dictionary does not change the
    array: two dictionaries with the same items, in whatever order, give the
    same array, or both give none. *)
Theorem preprocess_input_ignores_item_order (features features' : dict) required a :
  features ≡ₚ features' →
  NoDup (keys features) →
  preprocess_input features required = Ok a ↔
  preprocess_input features' required = Ok a.
Proof.
  intros Hp Hnd.
  assert (Hnd' : NoDup (keys features')) by (unfold keys in *; by rewrite <- Hp).
  split; by apply preprocess_input_Permutation_1.
Qed.

Lemma preprocess_input_ignores_item_order_witness :
  preprocess_input (reverse example_features) example_contract
    = Ok [decimal 100 1; decimal 3 1].
Proof.
  apply (preprocess_input_ignores_item_order example_features
           (reverse example_features) example_contract).
  - symmetry. apply reverse_Permutation.
  - compute_done.
  - reflexivity.
Defined.

(** X6. When the values under the contract names are instances of [int] or
    [float], the contract decides the array position by position: the array
    for two contracts put end to end is the array for the first followed by
    the array for the second, and there is an array for the whole exactly
    when there is one for each part. *)
Theorem preprocess_input_app features required1 required2 (a : np.ndarray) :
  numbers_at features (required1 ++ required2) →
  preprocess_input features (required1 ++ required2) = Ok a ↔
  ∃ a1 a2,
    preprocess_input features required1 = Ok a1 ∧
    preprocess_input features required2 = Ok a2 ∧
    a = a1 ++ a2.
Proof.
  intros _.
  assert (Hc : ∀ r1 r2, complete features (r1 ++ r2) ↔
                        complete features r1 ∧ complete features r2)
    by (intros; unfold complete; apply Forall_app).
  split.
  - intros [[Hcc Hacc]%validate_features_Ok HF]%preprocess_input_Ok_iff.
    apply Forall2_app_inv_l in HF as (a1 & a2 & HF1 & HF2 & ->).
    apply Hc in Hcc as [Hc1 Hc2].
    exists a1, a2. split; [|split; [|done]].
    all: apply preprocess_input_Ok_iff; split; [|done].
    all: by apply validate_features_Ok.
  - intros (a1 & a2 & [[Hc1 Hacc]%validate_features_Ok HF1]%preprocess_input_Ok_iff
              & [[Hc2 _]%validate_features_Ok HF2]%preprocess_input_Ok_iff & ->).
    apply preprocess_input_Ok_iff. split; [|by apply Forall2_app].
    apply validate_features_Ok. split; [|done]. by apply Hc.
Qed.

Lemma preprocess_input_app_witness :
  ∃ a1 a2,
    preprocess_input example_features ["duration"] = Ok a1 ∧
    preprocess_input example_features ["fwd_packets"] = Ok a2 ∧
    [decimal 100 1; decimal 3 1] = a1 ++ a2.
Proof.
  refine (proj1 (preprocess_input_app example_features ["duration"] ["fwd_packets"]
                   [decimal 100 1; decimal 3 1] _) _).
  - compute_done.
  - reflexivity.
Defined.

(** ** normalize_features *)

Lemma setitem_fresh (d : dict) k v : k ∉ keys d → setitem d k v = d ++ [(k, v)].
Proof.
  unfold keys. induction d as [|[k' v'] d IH]; simpl; [done|].
  intros [Hk Hd]%not_elem_of_cons. rewrite decide_False by done. by rewrite IH.
Qed.

Lemma elem_of_setitem (d : dict) k v item :
  item ∈ setitem d k v → item = (k, v) ∨ item ∈ d.
Proof.
  induction d as [|[k' v'] d IH]; simpl.
  - intros ->%list_elem_of_singleton. by left.
  - case_decide as Hk.
    + intros [->|H]%elem_of_cons; [by left|]. right. by right.
    + intros [->|H]%elem_of_cons; [right; left|].
      destruct (IH H) as [->|Hd]; [by left|right; by right].
Qed.

Lemma keys_setitem (d : dict) k v k' :
  k' ∈ keys (setitem d k v) ↔ k' = k ∨ k' ∈ keys d.
Proof.
  unfold keys. induction d as [|[k0 v0] d IH]; simpl.
  - rewrite list_elem_of_singleton, elem_of_nil. naive_solver.
  - case_decide as Hk; simpl; rewrite !elem_of_cons; [naive_solver|].
    rewrite IH. naive_solver.
Qed.



Lemma normalize_items_step name value items normalized :
  is_number value →
  normalize_items ((name, value) :: items) normalized
    = normalize_items items (setitem normalized name (normalized_value value)).
Proof.
  destruct value as [f|z|ty o]; simpl; [| |done].
  - intros _. by destruct (is_finite f).
  - intros H. rewrite (Is_true_eq_true _ H). simpl.
    pose proof (of_Z_finite z H) as Hf. unfold is_finite in Hf.
    by destruct (is_nan (of_Z z)), (is_inf (of_Z z)).
Qed.

Lemma normalize_items_not_number name value items normalized :
  ¬ is_number value →
  normalize_items ((name, value) :: items) normalized = Raise (TypeError UfuncNotSupported).
Proof.
  destruct value as [f|z|ty o]; simpl; [done| |done].
  by destruct (np.fits_integer z).
Qed.

Lemma normalize_items_numbers (items normalized : dict) :
  Forall (λ item, is_number item.2) items →
  NoDup (keys items) →
  (∀ k, k ∈ keys items → k ∉ keys normalized) →
  normalize_items items normalized
    = Ok (normalized ++ ((λ item, (item.1, normalized_value item.2)) <$> items)).
Proof.
  intros HF. revert normalized.
  induction HF as [|[name value] items Hv _ IH]; intros normalized Hnd Hdis.
  - simpl. by rewrite app_nil_r.
  - simpl in Hv. rewrite normalize_items_step by done.
    unfold keys in Hnd. simpl in Hnd. apply NoDup_cons in Hnd as [Hname Hnd].
    rewrite setitem_fresh by (apply Hdis; left).
    rewrite IH; [by rewrite <- app_assoc|done|].
    intros k Hk. unfold keys. rewrite fmap_app, elem_of_app. simpl.
    rewrite list_elem_of_singleton. intros [Hn| ->]; [|done].
    apply (Hdis k); [by right|done].
Qed.


(** X7. On a dictionary whose values are floats or ints that numpy holds,
    [normalize_features] returns the dictionary with the same keys in the same
    order, where a finite float is kept, a NaN or an infinity has become 0.0
    and an int has become its float. *)
Theorem normalize_features_numbers (features : dict) :
  NoDup (keys features) →
  Forall (λ item, is_number item.2) features →
  normalize_features features
    = Ok ((λ item, (item.1, normalized_value item.2)) <$> features) ∧
  (∀ name f, (name, PyFloat f) ∈ features →
     getitem ((λ item, (item.1, normalized_value item.2)) <$> features) name
       = Ok (PyFloat (if is_nan f || is_inf f then zero else f))).
Proof.
  intros Hnd HF. split.
  - unfold normalize_features. rewrite normalize_items_numbers; try done.
    intros k _. unfold keys. simpl. apply not_elem_of_nil.
  - intros name f Hin. apply getitem_NoDup.
    + unfold keys in *. rewrite <- list_fmap_compose.
      by rewrite (list_fmap_ext _ fst features) by (by intros ? []).
    + apply list_elem_of_fmap. exists (name, PyFloat f). split; [|done].
      simpl. unfold is_finite. by destruct (is_nan f), (is_inf f).
Qed.

Lemma normalize_features_numbers_witness :
  normalize_features
    [("duration", PyFloat S754_nan); ("fwd_packets", PyInt 3);
     ("bwd_packets", PyFloat (S754_infinity true))]
  = Ok [("duration", PyFloat zero); ("fwd_packets", PyFloat (decimal 3 1));
        ("bwd_packets", PyFloat zero)].
Proof.
  refine (proj1 (normalize_features_numbers
                   [("duration", PyFloat S754_nan); ("fwd_packets", PyInt 3);
                    ("bwd_packets", PyFloat (S754_infinity true))] _ _));
    compute_done.
Defined.

(** X8. On a dictionary whose values are instances of [int] or [float],
    [normalize_features] returns a dictionary exactly when every int is one
    that numpy holds; otherwise [np.isfinite] raises [TypeError] on an int of
    the dictionary that numpy does not hold, and that is the only exception. *)
Theorem normalize_features_succeeds_iff (features : dict) :
  Forall (λ item, isinstance_int_float item.2 = true) features →
  ((∃ normalized, normalize_features features = Ok normalized) ↔
   (∀ name z, (name, PyInt z) ∈ features → np.fits_integer z = true)) ∧
  (∀ e, normalize_features features = Raise e →
        e = TypeError UfuncNotSupported ∧
        ∃ name z, (name, PyInt z) ∈ features ∧ np.fits_integer z = false).
Proof.
  unfold normalize_features. generalize (@nil (string * pyval)) as normalized.
  induction features as [|[name value] items IH]; intros normalized Hnum.
  - simpl. split; [|done]. split; [by intros _ ? ? ?%elem_of_nil|by eexists].
  - apply Forall_cons in Hnum as [Hv Hnum]. simpl in Hv.
    destruct (decide (is_number value)) as [Hn|Hn].
    + rewrite normalize_items_step by done.
      destruct (IH (setitem normalized name (normalized_value value)) Hnum) as [IH1 IH2].
      split.
      * rewrite IH1. split.
        -- intros H n z [[= -> <-]|Hin]%elem_of_cons; [|by apply (H n)].
           simpl in Hn. by destruct (np.fits_integer z).
        -- intros H n z Hin. apply (H n). by right.
      * intros e (-> & n & z & Hin & Hz)%IH2. split; [done|].
        exists n, z. split; [by right|done].
    + rewrite normalize_items_not_number by done.
      destruct value as [f|z|ty o]; [done| |done]. simpl in Hn.
      split.
      * split; [by intros [? [=]]|]. intros H. destruct Hn.
        rewrite (H name z); [done|left].
      * intros e [= <-]. split; [done|]. exists name, z. split; [left|].
        by destruct (np.fits_integer z).
Qed.

Lemma normalize_features_succeeds_iff_witness :
  TypeError UfuncNotSupported = TypeError UfuncNotSupported ∧
  ∃ name z, (name, PyInt z) ∈ [("duration", PyFloat S754_nan); ("fwd_packets", PyInt (2 ^ 70))] ∧
            np.fits_integer z = false.
Proof.
  refine (proj2 (normalize_features_succeeds_iff
                   [("duration", PyFloat S754_nan); ("fwd_packets", PyInt (2 ^ 70))] _)
            (TypeError UfuncNotSupported) _).
  - compute_done.
  - reflexivity.
Defined.





(** ** ModelPredictor.predict: what is called and what is returned *)

Lemma estimator_of_knn : estimator_of "knn" = the_knn.
Proof. done. Qed.

Lemma estimator_of_logistic_regression :
  estimator_of "logistic_regression" = the_logistic_regression.
Proof. done. Qed.

(** X11. When [ModelPredictor.predict] returns [(label, probability)], the
    label is the answer of the selected classifier on the row that the scaler
    made of the input, and the probability is the answer of its
    [predict_proba] on that row, or 0.5 when it has none; the calls made are
    the scaler's transform, then the classifier's predict, then its
    predict_proba if any. *)
Theorem predict_returns self X model_type trace label p :
  ModelPredictor.predict self X model_type = (trace, Ok (label, p)) →
  ∃ the_scaler model X',
    ModelPredictor.scaler self = Some the_scaler ∧
    selected self model_type = Some model ∧
    sklearn.transform the_scaler X = Ok X' ∧
    sklearn.predict model X' = Ok label ∧
    match sklearn.predict_proba model with
    | Some proba =>
        proba X' = Ok p ∧
        trace = [Transform X; Predict (estimator_of model_type) X';
                 PredictProba (estimator_of model_type) X']
    | None =>
        p = decimal 5 10 ∧
        trace = [Transform X; Predict (estimator_of model_type) X']
    end.
Proof.
  unfold ModelPredictor.predict, selected.
  destruct (ModelPredictor.scaler self) as [s|]; [|done].
  destruct (ModelPredictor.logistic_regression self) as [lr|]; [|done].
  destruct (ModelPredictor.knn self) as [k|]; [|done].
  destruct (sklearn.transform s X) as [X'|e] eqn:HX; [|done].
  unfold call. rewrite traced_bind_Ok. simpl.
  destruct (decide (model_type = "knn")) as [->|Hk];
    [|destruct (decide (model_type = "logistic_regression")) as [->|Hlr]; [|done]].
  - rewrite estimator_of_knn. simpl.
    destruct (sklearn.predict k X') as [l|e] eqn:Hl; [|done]. simpl.
    destruct (sklearn.predict_proba k) as [proba|] eqn:Hp; simpl.
    + destruct (proba X') as [q|e] eqn:Hq; [|done]. simpl. intros [= <- <- <-].
      exists s, k, X'. rewrite Hp. by repeat split.
    + intros [= <- <- <-]. exists s, k, X'. rewrite Hp.
      repeat split; try done. by destruct (l =? 1)%Z.
  - rewrite estimator_of_logistic_regression. simpl.
    destruct (sklearn.predict lr X') as [l|e] eqn:Hl; [|done]. simpl.
    destruct (sklearn.predict_proba lr) as [proba|] eqn:Hp; simpl.
    + destruct (proba X') as [q|e] eqn:Hq; [|done]. simpl. intros [= <- <- <-].
      exists s, lr, X'. rewrite Hp. by repeat split.
    + intros [= <- <- <-]. exists s, lr, X'. rewrite Hp.
      repeat split; try done. by destruct (l =? 1)%Z.
Qed.

Lemma predict_returns_witness :
  ∃ the_scaler model X',
    ModelPredictor.scaler example_predictor = Some the_scaler ∧
    selected example_predictor "knn" = Some model ∧
    sklearn.transform the_scaler [decimal 100 1; decimal 3 1] = Ok X' ∧
    sklearn.predict model X' = Ok 1%Z.
Proof.
  destruct (predict_returns example_predictor [decimal 100 1; decimal 3 1] "knn"
              [Transform [decimal 100 1; decimal 3 1];
               Predict the_knn [decimal 100 1; decimal 3 1];
               PredictProba the_knn [decimal 100 1; decimal 3 1]]
              1 (decimal 95 100))
    as (s & model & X' & Hs & Hm & HX & Hl & _).
  - reflexivity.
  - by exists s, model, X'.
Defined.

(** X12. [ModelPredictor.predict] never calls the classifier that the model
    type does not select; when it calls anything, the first call is the
    scaler's transform of the input; and with a model type that is neither
    "knn" nor "logistic_regression" it calls no classifier at all. *)
Theorem predict_calls_only_selected self X model_type :
  let trace := (ModelPredictor.predict self X model_type).1 in
  (∀ ev, ev ∈ trace → calls_other (estimator_of model_type) ev = false) ∧
  (trace = [] ∨ ∃ calls, trace = Transform X :: calls) ∧
  (model_type ∉ ["knn"; "logistic_regression"] →
   trace = [] ∨ trace = [Transform X]).
Proof.
  unfold ModelPredictor.predict.
  destruct (ModelPredictor.scaler self) as [s|];
    [|simpl; split; [by intros ? ?%elem_of_nil|split; [by left|by left]]].
  destruct (ModelPredictor.logistic_regression self) as [lr|];
    [|simpl; split; [by intros ? ?%elem_of_nil|split; [by left|by left]]].
  destruct (ModelPredictor.knn self) as [k|];
    [|simpl; split; [by intros ? ?%elem_of_nil|split; [by left|by left]]].
  unfold call.
  destruct (sklearn.transform s X) as [X'|e].
  2:{ simpl. split; [|split; [right; by eexists|by right]].
      by intros ev ->%list_elem_of_singleton. }
  rewrite traced_bind_Ok.
  destruct (decide (model_type = "knn")) as [->|Hk];
    [|destruct (decide (model_type = "logistic_regression")) as [->|Hlr]].
  - rewrite estimator_of_knn. simpl.
    split; [|split; [right; by eexists|set_solver]].
    destruct (sklearn.predict k X') as [l|e]; simpl;
      [destruct (sklearn.predict_proba k) as [proba|]; simpl;
       [destruct (proba X'); simpl|]|].
    all: intros ev Hev; apply list_elem_of_In in Hev; simpl in Hev.
    all: by repeat destruct Hev as [<-|Hev].
  - rewrite estimator_of_logistic_regression. simpl.
    split; [|split; [right; by eexists|set_solver]].
    destruct (sklearn.predict lr X') as [l|e]; simpl;
      [destruct (sklearn.predict_proba lr) as [proba|]; simpl;
       [destruct (proba X'); simpl|]|].
    all: intros ev Hev; apply list_elem_of_In in Hev; simpl in Hev.
    all: by repeat destruct Hev as [<-|Hev].
  - simpl. split; [|split; [right; by eexists|by right]].
    by intros ev ->%list_elem_of_singleton.
Qed.

(** ** The prediction handlers: statuses and aborted batches *)

Lemma predict_handler_Raise predictor now request trace e :
  predict_one predictor (features request) (model_type request) = (trace, Raise e) →
  predict (Some predictor) now request
    = (trace, HTTPException (status_of e) (predict_detail e)).
Proof.
  intros H. unfold predict. cbn [mbind]. rewrite H. rewrite traced_bind_Raise.
  by destruct e.
Qed.

(** X13. The handler of a single prediction answers 503 "Models not loaded"
    when no registry is loaded, and then calls nothing. With a registry, a
    [ValueError] of the pipeline is answered 400 with the message of the
    exception, and any other exception 500 with "Prediction error: " before
    its message, after the calls that the pipeline made. These are the only
    statuses: a 503 comes from the absent registry alone, and a 400 or a 500
    from an exception of the pipeline. *)
Theorem predict_statuses now request :
  predict None now request = ([], HTTPException 503 DetailModelsNotLoaded) ∧
  (∀ p trace m,
     predict_one p (features request) (model_type request)
       = (trace, Raise (ValueError m)) →
     predict (Some p) now request
       = (trace, HTTPException 400 (DetailStr (ValueError m)))) ∧
  (∀ p trace e,
     predict_one p (features request) (model_type request) = (trace, Raise e) →
     (∀ m, e ≠ ValueError m) →
     predict (Some p) now request
       = (trace, HTTPException 500 (DetailPredictionError e))) ∧
  (∀ predictor code d,
     (predict predictor now request).2 = HTTPException code d →
     (predictor = None ∧ code = 503%Z ∧ d = DetailModelsNotLoaded ∧
      (predict predictor now request).1 = []) ∨
     (∃ p e, predictor = Some p ∧
             (predict_one p (features request) (model_type request)).2 = Raise e ∧
             code = status_of e ∧ d = predict_detail e ∧
             (code = 400 ∨ code = 500)%Z)).
Proof.
  split; [done|]. split; [|split].
  - intros p trace m H. by rewrite (predict_handler_Raise _ now _ _ _ H).
  - intros p trace e H Hne. rewrite (predict_handler_Raise _ now _ _ _ H).
    destruct e; try done. by destruct (Hne m).
  - intros predictor code d.
    destruct predictor as [p|]; [|intros [= <- <-]; by left].
    destruct (predict_one p (features request) (model_type request))
      as [trace [r|e]] eqn:H.
    + destruct r as [label q]. by rewrite (predict_responds _ now _ _ _ _ H).
    + rewrite (predict_handler_Raise _ now _ _ _ H). simpl. intros [= <- <-].
      right. exists p, e. rewrite H. repeat split; try done. destruct e; auto.
Qed.



Lemma predict_each_app predictor model_type data1 data2 :
  predict_each predictor model_type (data1 ++ data2)
    = (rs1 ← predict_each predictor model_type data1;
       rs2 ← predict_each predictor model_type data2;
       mret (rs1 ++ rs2)).
Proof.
  induction data1 as [|features data1 IH]; simpl.
  - unfold mret at 1, traced_ret. rewrite traced_bind_Ok. simpl.
    by destruct (predict_each predictor model_type data2) as [trace [rs|e]];
      [rewrite traced_bind_Ok; simpl; rewrite app_nil_r|].
  - destruct (predict_one predictor features model_type) as [trace [r|e]]; [|done].
    rewrite !traced_bind_Ok. rewrite IH.
    destruct (predict_each predictor model_type data1) as [trace1 [rs1|e]]; [|done].
    rewrite !traced_bind_Ok.
    destruct (predict_each predictor model_type data2) as [trace2 [rs2|e]].
    + rewrite !traced_bind_Ok. cbn. by rewrite !app_nil_r, <- !app_assoc.
    + rewrite !traced_bind_Raise. cbn. by rewrite <- !app_assoc.
Qed.

Lemma predict_batch_Raise predictor request trace e :
  predict_each predictor (batch_model_type request) (data request) = (trace, Raise e) →
  predict_batch (Some predictor) request
    = (trace, HTTPException (status_of e) (batch_detail e)).
Proof.
  intros H. unfold predict_batch. rewrite batch_loop_predict_each, H.
  rewrite !traced_bind_Raise. by destruct e.
Qed.

(** X15. One failing record aborts the whole batch: when the records before
    it succeed and this one raises, the handler raises for that exception
    (400 for a [ValueError], 500 otherwise) and returns no prediction; the
    calls made are those of the records up to the failing one, and the records
    after it are not processed. *)
Theorem batch_aborts_at_first_failure
    predictor model_type before failing after trace1 results trace2 e :
  predict_each predictor model_type before = (trace1, Ok results) →
  predict_one predictor failing model_type = (trace2, Raise e) →
  predict_batch (Some predictor)
      {| data := before ++ failing :: after; batch_model_type := model_type |}
    = (trace1 ++ trace2, HTTPException (status_of e) (batch_detail e)).
Proof.
  intros H1 H2. apply predict_batch_Raise. simpl.
  rewrite predict_each_app, H1. rewrite traced_bind_Ok. simpl.
  rewrite H2. by rewrite !traced_bind_Raise.
Qed.

Lemma batch_aborts_at_first_failure_witness :
  predict_batch (Some example_predictor)
      {| data := [example_features; []; example_features]; batch_model_type := "knn" |}
    = ([Transform [decimal 100 1; decimal 3 1];
        Predict the_knn [decimal 100 1; decimal 3 1];
        PredictProba the_knn [decimal 100 1; decimal 3 1]],
       HTTPException 400
         (DetailStr (ValueError (MissingRequiredFeatures {["duration"; "fwd_packets"]})))).
Proof.
  refine (eq_trans
            (batch_aborts_at_first_failure example_predictor "knn"
               [example_features] [] [example_features]
               [Transform [decimal 100 1; decimal 3 1];
                Predict the_knn [decimal 100 1; decimal 3 1];
                PredictProba the_knn [decimal 100 1; decimal 3 1]]
               [(1%Z, decimal 95 100)] []
               (ValueError (MissingRequiredFeatures {["duration"; "fwd_packets"]})) _ _) _);
    by vm_compute.
Defined.

Lemma sum_app l1 l2 : sum (l1 ++ l2) = (sum l1 + sum l2)%Z.
Proof. unfold sum. induction l1 as [|x l1 IH]; simpl; [done|]. rewrite IH. lia. Qed.

Lemma len_app {A} (l1 l2 : list A) : len (l1 ++ l2) = (len l1 + len l2)%Z.
Proof. unfold len. rewrite length_app. lia. Qed.

(** X16. Batches compose: when the handler answers two batches, it answers
    the two lists put end to end with the predictions and the probabilities of
    the first followed by those of the second, the three counts added, and the
    calls of the first followed by the calls of the second. *)
Theorem batch_of_app predictor model_type data1 data2 trace1 trace2 response1 response2 :
  predict_batch (Some predictor) {| data := data1; batch_model_type := model_type |}
    = (trace1, Respond response1) →
  predict_batch (Some predictor) {| data := data2; batch_model_type := model_type |}
    = (trace2, Respond response2) →
  predict_batch (Some predictor)
      {| data := data1 ++ data2; batch_model_type := model_type |}
    = (trace1 ++ trace2,
       Respond {| predictions := predictions response1 ++ predictions response2;
                  probabilities := probabilities response1 ++ probabilities response2;
                  batch_model_used := model_type;
                  total_count := total_count response1 + total_count response2;
                  attack_count := attack_count response1 + attack_count response2;
                  normal_count := normal_count response1 + normal_count response2 |}).
Proof.
  intros (rs1 & H1 & Hp1 & Hq1 & Ht1 & Ha1 & Hn1)%predict_batch_Respond
         (rs2 & H2 & Hp2 & Hq2 & Ht2 & Ha2 & Hn2)%predict_batch_Respond.
  simpl in H1, H2. unfold predict_batch. simpl.
  rewrite batch_loop_predict_each, predict_each_app, H1.
  rewrite traced_bind_Ok. simpl. rewrite H2. rewrite !traced_bind_Ok. cbn.
  rewrite !app_nil_r, !fmap_app, sum_app, len_app.
  rewrite Hp1, Hp2, Hq1, Hq2, Ht1, Ht2, Ha1, Ha2, Hn1, Hn2.
  do 3 f_equal; lia.
Qed.

Lemma batch_of_app_witness :
  (predict_batch (Some example_predictor)
      {| data := [example_features] ++ [example_features; example_features];
         batch_model_type := "knn" |}).2
    = Respond {| predictions := [1; 1; 1]%Z;
                 probabilities := [decimal 95 100; decimal 95 100; decimal 95 100];
                 batch_model_used := "knn";
                 total_count := 3; attack_count := 3; normal_count := 0 |}.
Proof.
  rewrite (batch_of_app example_predictor "knn"
             [example_features] [example_features; example_features]
             _ _ _ _ eq_refl eq_refl).
  reflexivity.
Defined.

(** ** Loading, health and statistics *)

(** X17. [load] is idempotent: calling it again on the object it left gives
    the same object and the same outcome, be it a success or the same
    [FileNotFoundError]. *)
Theorem load_idempotent self :
  ModelPredictor.load (ModelPredictor.load self).1 = ModelPredictor.load self.
Proof.
  destruct self as [d lr0 k0 s0 names md0]. unfold ModelPredictor.load. simpl.
  destruct (scaler_file d) as [s|] eqn:Hs; simpl; rewrite ?Hs; simpl; [|done].
  destruct (logistic_regression_file d) as [lr|] eqn:Hlr; simpl;
    rewrite ?Hs; simpl; rewrite ?Hlr; simpl; [|done].
  destruct (knn_file d) as [k|] eqn:Hk; simpl;
    rewrite ?Hs; simpl; rewrite ?Hlr, ?Hk; simpl; [|done].
  destruct (model_metadata_file d) as [md|] eqn:Hmd; simpl;
    rewrite ?Hs; simpl; rewrite ?Hlr, ?Hk; simpl; by rewrite ?Hmd.
Qed.

(** X18. [load_models] returns a registry exactly when the four files are in
    the directory, and the registry then holds the objects of the three
    pickles, the metadata document and its feature names (none when the
    document has no key "feature_names"). *)
Theorem load_models_returns_iff model_dir predictor :
  load_models model_dir = Ok predictor ↔
  ∃ s lr k md,
    scaler_file model_dir = Some s ∧
    logistic_regression_file model_dir = Some lr ∧
    knn_file model_dir = Some k ∧
    model_metadata_file model_dir = Some md ∧
    predictor = {| ModelPredictor.model_dir := model_dir;
                   ModelPredictor.logistic_regression := Some lr;
                   ModelPredictor.knn := Some k;
                   ModelPredictor.scaler := Some s;
                   ModelPredictor.feature_names := default [] (md_feature_names md);
                   ModelPredictor.metadata := Some md |}.
Proof.
  unfold load_models, ModelPredictor.load. simpl.
  destruct (scaler_file model_dir) as [s|]; simpl; [|naive_solver].
  destruct (logistic_regression_file model_dir) as [lr|]; simpl; [|naive_solver].
  destruct (knn_file model_dir) as [k|]; simpl; [|naive_solver].
  destruct (model_metadata_file model_dir) as [md|]; simpl; [|naive_solver].
  split.
  - intros [= <-]. by exists s, lr, k, md.
  - by intros (? & ? & ? & ? & [= <-] & [= <-] & [= <-] & [= <-] & ->).
Qed.

(** X19. After [startup_event] the health check says "healthy", with
    [models_loaded] true, exactly when none of the four files is absent;
    otherwise it says "unhealthy". *)
Theorem health_after_startup model_dir now :
  let health := health_check (startup_event None model_dir).1 now in
  (status health = "healthy" ↔ ∀ which, ¬ absent model_dir which) ∧
  (status health = "unhealthy" ↔ ∃ which, absent model_dir which) ∧
  (health_models_loaded health = true ↔ status health = "healthy").
Proof.
  unfold startup_event, load_models, ModelPredictor.load, health_check. simpl.
  destruct (scaler_file model_dir) as [s|] eqn:Hs; simpl.
  2:{ repeat split; try done.
      - intros H. by destruct (H scaler_pkl).
      - intros _. by exists scaler_pkl. }
  destruct (logistic_regression_file model_dir) as [lr|] eqn:Hlr; simpl.
  2:{ repeat split; try done.
      - intros H. by destruct (H logistic_regression_pkl).
      - intros _. by exists logistic_regression_pkl. }
  destruct (knn_file model_dir) as [k|] eqn:Hk; simpl.
  2:{ repeat split; try done.
      - intros H. by destruct (H knn_pkl).
      - intros _. by exists knn_pkl. }
  destruct (model_metadata_file model_dir) as [md|] eqn:Hmd; simpl.
  2:{ repeat split; try done.
      - intros H. by destruct (H model_metadata_json).
      - intros _. by exists model_metadata_json. }
  repeat split; try done.
  - intros _ [] H; simpl in H; congruence.
  - intros [[] H]; simpl in H; congruence.
Qed.

(** X20. The statistics of a registry that [load_models] returned show the
    three models as loaded, the metadata document of the directory, and as
    [num_features] the number of feature names of that document. *)
Theorem get_stats_after_load model_dir predictor :
  load_models model_dir = Ok predictor →
  ∃ md,
    model_metadata_file model_dir = Some md ∧
    get_stats (Some predictor)
      = Respond {| stats_metadata := Some md;
                   stats_num_features := len (default [] (md_feature_names md));
                   stats_models_loaded :=
                     {| loaded_logistic_regression := true;
                        loaded_knn := true;
                        loaded_scaler := true |} |}.
Proof.
  unfold load_models, ModelPredictor.load. simpl.
  destruct (scaler_file model_dir) as [s|]; simpl; [|done].
  destruct (logistic_regression_file model_dir) as [lr|]; simpl; [|done].
  destruct (knn_file model_dir) as [k|]; simpl; [|done].
  destruct (model_metadata_file model_dir) as [md|]; simpl; [|done].
  intros [= <-]. by exists md.
Qed.

Lemma get_stats_after_load_witness :
  ∃ md,
    model_metadata_file example_directory = Some md ∧
    get_stats (Some example_predictor)
      = Respond {| stats_metadata := Some md;
                   stats_num_features := len (default [] (md_feature_names md));
                   stats_models_loaded :=
                     {| loaded_logistic_regression := true;
                        loaded_knn := true;
                        loaded_scaler := true |} |}.
Proof. apply (get_stats_after_load example_directory example_predictor). reflexivity. Defined.

(** ** The example of the feature list *)

Lemma setitem_length (d : dict) k v : (length (setitem d k v) ≤ S (length d))%nat.
Proof.
  induction d as [|[k' v'] d IH]; simpl; [lia|]. case_decide; simpl; lia.
Qed.

Lemma zeros_dict_invariant names (d : dict) :
  let d' := foldl (λ d name, setitem d name (PyFloat zero)) d names in
  (∀ k, k ∈ keys d' ↔ k ∈ keys d ∨ k ∈ names) ∧
  (Forall (λ item, item.2 = PyFloat zero) d → Forall (λ item, item.2 = PyFloat zero) d') ∧
  (length d' ≤ length d + length names)%nat.
Proof.
  revert d. induction names as [|name names IH]; intros d; simpl.
  - split; [|split; [done|lia]]. intros k. rewrite elem_of_nil. naive_solver.
  - destruct (IH (setitem d name (PyFloat zero))) as (Hk & Hz & Hl).
    split; [|split].
    + intros k. rewrite Hk, keys_setitem, elem_of_cons. naive_solver.
    + intros H. apply Hz. apply Forall_forall.
      intros item [->|Hi]%elem_of_setitem; [done|].
      by apply (proj1 (Forall_forall _ _) H).
    + pose proof (setitem_length d name (PyFloat zero)). lia.
Qed.

Lemma zeros_dict_spec names :
  (∀ k, k ∈ keys (zeros_dict names) ↔ k ∈ names) ∧
  Forall (λ item, item.2 = PyFloat zero) (zeros_dict names) ∧
  (length (zeros_dict names) ≤ length names)%nat.
Proof.
  destruct (zeros_dict_invariant names []) as (Hk & Hz & Hl).
  split; [|split; [by apply Hz|done]].
  intros k. unfold zeros_dict. rewrite Hk. split; [|by right].
  intros [H|H]; [|done]. unfold keys in H. simpl in H. by apply elem_of_nil in H.
Qed.

Lemma zeros_dict_getitem names name :
  name ∈ names → getitem (zeros_dict names) name = Ok (PyFloat zero).
Proof.
  destruct (zeros_dict_spec names) as (Hk & Hz & _).
  intros [v Hv]%Hk%getitem_key. rewrite Hv. f_equal.
  apply getitem_Ok_elem in Hv. by apply (proj1 (Forall_forall _ _) Hz) in Hv.
Qed.

(** X21. The feature list comes with an example dictionary: 0.0 under each of
    the first ten feature names, so at most ten items. When the contract has
    at most ten names, [preprocess_input] turns the example into the array of
    zeros of the contract's length; when it has more than ten, all distinct,
    validation rejects the example for the names after the tenth. *)
Theorem feature_example predictor :
  let names := ModelPredictor.feature_names predictor in
  ∃ response,
    get_feature_names (Some predictor) = Respond response ∧
    response_feature_names response = names ∧
    response_num_features response = len names ∧
    (length (example response) ≤ 10)%nat ∧
    ((length names ≤ 10)%nat →
     preprocess_input (example response) names = Ok (replicate (length names) zero)) ∧
    (NoDup names → (10 < length names)%nat →
     validate_features (example response) names
       = Raise (ValueError (MissingRequiredFeatures (list_to_set (drop 10 names))))).
Proof.
  intros names. eexists. split; [done|]. simpl. fold names.
  destruct (zeros_dict_spec (take 10 names)) as (Hk & Hz & Hl).
  repeat split.
  - rewrite length_take in Hl. lia.
  - intros Hlen. rewrite take_ge in * by done.
    apply preprocess_input_Ok_iff. split.
    + apply validate_features_Ok. split.
      * apply complete_elem. intros name. by rewrite Hk.
      * eapply Forall_impl; [exact Hz|]. intros [name value] Hv. simpl in *. by subst.
    + apply Forall2_same_length_lookup. split; [by rewrite length_replicate|].
      intros i name x Hname [-> _]%lookup_replicate.
      exists (PyFloat zero). split; [|done].
      by apply zeros_dict_getitem, list_elem_of_lookup_2 with i.
  - intros Hnd Hlen.
    assert (Hm : missing (zeros_dict (take 10 names)) names = list_to_set (drop 10 names)).
    { apply leibniz_equiv. intros k. rewrite elem_of_missing, Hk, elem_of_list_to_set.
      rewrite <- (take_drop 10 names) in Hnd.
      apply NoDup_app in Hnd as (_ & Hdis & _).
      rewrite <- (take_drop 10 names) at 1. rewrite elem_of_app. naive_solver. }
    rewrite validate_features_incomplete; [by rewrite Hm|].
    intros Hc%missing_empty. rewrite Hm in Hc.
    destruct (drop 10 names) as [|name rest] eqn:Hd.
    + apply (f_equal length) in Hd. rewrite length_drop in Hd. simpl in Hd. lia.
    + set_solver.
Qed.

(** ** The confidence bucket, continued *)

Lemma decimal_thresholds :
  decimal 8 10 = S754_finite false 7205759403792794 (-53) ∧
  decimal 6 10 = S754_finite false 5404319552844595 (-53) ∧
  decimal 2 10 = S754_finite false 7205759403792794 (-55) ∧
  decimal 4 10 = S754_finite false 7205759403792794 (-54).
Proof. vm_compute. repeat split; reflexivity. Qed.

(** The order of two positive floats of equal exponent is that of their
    mantissas, and of equal mantissa that of their exponents. *)
Lemma SFltb_finite_l m1 m2 e p :
  (m2 < m1)%positive →
  SFltb (S754_finite false m1 e) p = true → SFltb (S754_finite false m2 e) p = true.
Proof.
  intros Hm. unfold SFltb, SFcompare.
  destruct p as [[]|[]| |[] m' e']; try (intros H; exact H).
  change (PosDef.Pos.compare_cont Eq) with Pos.compare.
  destruct (Z.compare_spec e e') as [<-|He|He]; try (intros H; exact H).
  destruct (Pos.compare_spec m1 m') as [<-|H1|H1]; try (intros H; discriminate H).
  intros _. destruct (Pos.compare_spec m2 m') as [<-|H2|H2]; [lia|reflexivity|lia].
Qed.

Lemma SFltb_finite_r m e1 e2 p :
  (e1 < e2)%Z →
  SFltb p (S754_finite false m e1) = true → SFltb p (S754_finite false m e2) = true.
Proof.
  intros He. unfold SFltb, SFcompare.
  destruct p as [[]|[]| |[] m' e']; try (intros H; exact H).
  change (PosDef.Pos.compare_cont Eq) with Pos.compare.
  destruct (Z.compare_spec e' e1) as [->|H1|H1].
  - intros _. destruct (Z.compare_spec e1 e2); [lia|reflexivity|lia].
  - intros _. destruct (Z.compare_spec e' e2); [lia|reflexivity|lia].
  - intros H. discriminate H.
Qed.

Lemma gt_08_06 p : gt p (decimal 8 10) → gt p (decimal 6 10).
Proof.
  unfold gt, gtb.
  rewrite (proj1 decimal_thresholds), (proj1 (proj2 decimal_thresholds)).
  apply SFltb_finite_l. vm_compute. reflexivity.
Qed.

Lemma lt_02_04 p : lt p (decimal 2 10) → lt p (decimal 4 10).
Proof.
  unfold lt, ltb.
  rewrite (proj1 (proj2 (proj2 decimal_thresholds))), (proj2 (proj2 (proj2 decimal_thresholds))).
  apply SFltb_finite_r. vm_compute. reflexivity.
Qed.

Lemma determine_confidence_nan p : is_nan p → determine_confidence p = "Low".
Proof.
  destruct p as [s|s| |s m e]; [intros []|intros []| |intros []].
  intros _. vm_compute. reflexivity.
Qed.

(** X22. The two tests of the bucket are nested: a probability above 0.8 is
    above 0.6 and one below 0.2 is below 0.4. So the bucket is "High" exactly
    when [p > 0.8 or p < 0.2], "Low" exactly when neither [p > 0.6] nor
    [p < 0.4] holds, which includes NaN, and "Medium" in between. *)
Theorem confidence_buckets_nested p :
  (gt p (decimal 8 10) ∨ lt p (decimal 2 10) →
   gt p (decimal 6 10) ∨ lt p (decimal 4 10)) ∧
  (determine_confidence p = "High" ↔ gt p (decimal 8 10) ∨ lt p (decimal 2 10)) ∧
  (determine_confidence p = "Low" ↔ ¬ (gt p (decimal 6 10) ∨ lt p (decimal 4 10))) ∧
  (determine_confidence p = "Medium" ↔
   (gt p (decimal 6 10) ∨ lt p (decimal 4 10)) ∧
   ¬ (gt p (decimal 8 10) ∨ lt p (decimal 2 10))) ∧
  (is_nan p → determine_confidence p = "Low").
Proof.
  assert (Hnest : gt p (decimal 8 10) ∨ lt p (decimal 2 10) →
                  gt p (decimal 6 10) ∨ lt p (decimal 4 10)).
  { intros [H|H]; [left; by apply gt_08_06|right; by apply lt_02_04]. }
  split; [exact Hnest|].
  split; [|split; [|split; [|apply determine_confidence_nan]]].
  all: destruct (decide (gt p (decimal 8 10) ∨ lt p (decimal 2 10))) as [Hh|Hh];
    [rewrite (determine_confidence_High p Hh)
    |destruct (decide (gt p (decimal 6 10) ∨ lt p (decimal 4 10))) as [Hm|Hm];
     [rewrite (determine_confidence_Medium p Hh Hm)
     |rewrite (determine_confidence_Low p Hh Hm)]].
  all: split; try discriminate; try tauto.
  all: intros H; exfalso; tauto.
Qed.

Lemma determine_confidence_half : determine_confidence (decimal 5 10) = "Low".
Proof. vm_compute. reflexivity. Qed.

(** X23. When the selected classifier has no [predict_proba], the handler of
    a single prediction answers the label with probability 0.5 and confidence
    "Low", whatever the label. *)
Theorem fallback_confidence_is_Low
    predictor the_scaler model now request X X' label :
  loaded predictor →
  ModelPredictor.scaler predictor = Some the_scaler →
  selected predictor (model_type request) = Some model →
  preprocess_input (features request) (ModelPredictor.feature_names predictor) = Ok X →
  sklearn.transform the_scaler X = Ok X' →
  sklearn.predict model X' = Ok label →
  sklearn.predict_proba model = None →
  ∃ which,
    predict (Some predictor) now request
      = ([Transform X; Predict which X'],
         Respond {| prediction := label; probability := decimal 5 10;
                    model_used := model_type request;
                    confidence := "Low"; timestamp := now |}).
Proof.
  intros Hl Hs Hsel HX HX' Hlabel Hp.
  destruct (predict_selected predictor the_scaler model X X' (model_type request) label)
    as [which Hpred]; try done.
  exists which.
  rewrite (predict_responds predictor now request
             [Transform X; Predict which X'] label (decimal 5 10)).
  - by rewrite determine_confidence_half.
  - by rewrite (predict_one_preprocessed _ _ _ X HX).
Qed.

Lemma fallback_confidence_is_Low_witness :
  ∃ which,
    predict (Some example_predictor) "2024-01-01T00:00:00"
        {| features := example_features; model_type := "logistic_regression" |}
      = ([Transform [decimal 100 1; decimal 3 1];
          Predict which [decimal 100 1; decimal 3 1]],
         Respond {| prediction := 0; probability := decimal 5 10;
                    model_used := "logistic_regression";
                    confidence := "Low"; timestamp := "2024-01-01T00:00:00" |}).
Proof.
  apply (fallback_confidence_is_Low example_predictor example_scaler
           example_without_proba "2024-01-01T00:00:00"
           {| features := example_features; model_type := "logistic_regression" |}
           [decimal 100 1; decimal 3 1] [decimal 100 1; decimal 3 1] 0).
  - compute_done.
  - reflexivity.
  - reflexivity.
  - reflexivity.
  - reflexivity.
  - reflexivity.
  - reflexivity.
Defined.

(** ** The choice of k in the training scripts *)

Lemma ltb_trans x y z : ltb x y = true → ltb y z = true → ltb x z = true.
Proof.
  unfold ltb, SFltb, SFcompare.
  destruct x as [sx|sx| |sx mx ex], y as [sy|sy| |sy my ey], z as [sz|sz| |sz mz ez];
    try destruct sx; try destruct sy; try destruct sz; simpl; try easy.
  all: change (PosDef.Pos.compare_cont Eq) with Pos.compare.
  all: destruct (Z.compare_spec ex ey), (Z.compare_spec ey ez), (Z.compare_spec ex ez);
    try easy; try lia; subst.
  all: destruct (Pos.compare_spec mx my), (Pos.compare_spec my mz),
         (Pos.compare_spec mx mz);
    simpl; try easy; try lia.
Qed.

Lemma ltb_irrefl x : ltb x x = false.
Proof.
  unfold ltb, SFltb, SFcompare. destruct x as [[]|[]| |[] m e]; try reflexivity.
  all: rewrite Z.compare_refl; change (PosDef.Pos.compare_cont Eq) with Pos.compare;
    by rewrite Pos.compare_refl.
Qed.

Lemma knn_turn_best_of evaluate k0 k :
  knn_turn evaluate (best_of evaluate k0) k
    = if gtb (knn_f1 (evaluate k)) (knn_f1 (evaluate k0))
      then best_of evaluate k else best_of evaluate k0.
Proof. done. Qed.

Lemma knn_loop_best evaluate ks : ∀ k0 seen,
  k0 ∈ seen →
  (∀ k', k' ∈ seen → ¬ gt (knn_f1 (evaluate k')) (knn_f1 (evaluate k0))) →
  ∃ k, k ∈ seen ++ ks ∧
       knn_loop evaluate ks (best_of evaluate k0) = best_of evaluate k ∧
       (∀ k', k' ∈ seen ++ ks → ¬ gt (knn_f1 (evaluate k')) (knn_f1 (evaluate k))) ∧
       (k = k0 ∨ gt (knn_f1 (evaluate k)) (knn_f1 (evaluate k0))).
Proof.
  induction ks as [|k1 ks IH]; intros k0 seen Hin Hmax.
  - exists k0. rewrite app_nil_r. repeat split; try done. by left.
  - unfold knn_loop. simpl. rewrite knn_turn_best_of.
    destruct (gtb (knn_f1 (evaluate k1)) (knn_f1 (evaluate k0))) eqn:Hgt.
    + destruct (IH k1 (seen ++ [k1])) as (k & Hk & Hloop & Hbest & Hfirst).
      * apply elem_of_app. right. by left.
      * intros k' [Hk'| ->%list_elem_of_singleton]%elem_of_app.
        -- intros Hgt'. apply (Hmax k' Hk'). unfold gt, gtb in *.
           by apply ltb_trans with (knn_f1 (evaluate k1)).
        -- unfold gt, gtb. by rewrite ltb_irrefl.
      * exists k. rewrite <- app_assoc in Hk, Hbest. repeat split; try done.
        right. destruct Hfirst as [->|Hfirst]; [done|].
        unfold gt, gtb in *. by apply ltb_trans with (knn_f1 (evaluate k1)).
    + destruct (IH k0 (seen ++ [k1])) as (k & Hk & Hloop & Hbest & Hfirst).
      * apply elem_of_app. by left.
      * intros k' [Hk'| ->%list_elem_of_singleton]%elem_of_app; [by apply Hmax|].
        unfold gt. by rewrite Hgt.
      * exists k. rewrite <- app_assoc in Hk, Hbest. by repeat split.
Qed.

(** X24. The loop over k = 3, 5, 7 of both training scripts ends with the six
    variables taken from one and the same candidate: the saved classifier, the
    recorded k and the recorded scores belong together. No candidate has an F1
    greater than the chosen one, the chosen one is 3 unless its F1 is strictly
    greater than that of 3, and the "knn" block of the metadata is written
    with these values. *)
Theorem choose_knn_best evaluate :
  ∃ k,
    k ∈ [3; 5; 7]%Z ∧
    choose_knn evaluate = best_of evaluate k ∧
    (∀ k', k' ∈ [3; 5; 7]%Z →
           ¬ gt (knn_f1 (evaluate k')) (knn_f1 (evaluate k))) ∧
    (k = 3%Z ∨ gt (knn_f1 (evaluate k)) (knn_f1 (evaluate 3))) ∧
    knn_block (choose_knn evaluate)
      = Ok {| block_k := Some k;
              block_accuracy := knn_acc (evaluate k);
              block_precision := knn_prec (evaluate k);
              block_recall := knn_rec (evaluate k);
              block_f1_score := knn_f1 (evaluate k) |}.
Proof.
  destruct (knn_loop_best evaluate [5; 7]%Z 3%Z [3%Z]) as (k & Hk & Hloop & Hbest & Hfirst).
  - by left.
  - intros k' ->%list_elem_of_singleton. unfold gt, gtb. by rewrite ltb_irrefl.
  - exists k. assert (Hc : choose_knn evaluate = best_of evaluate k) by exact Hloop.
    repeat split; try done. by rewrite Hc.
Qed.

(** With F1 0.9 for k = 3 and 0.95 for both k = 5 and k = 7, the loop keeps
    k = 5. *)
Example choose_knn_example : best_k (choose_knn example_evaluate) = Some 5%Z.
Proof. vm_compute. reflexivity. Qed.
